(** * MandelSound: the adaptive fractal renderer and its sonification

    A shallow embedding of [2man.cpp] (the adaptive, multi-threaded renderer)
    and of [man.cpp] (the first, single-threaded version).

    The C++ type [double] is kept abstract behind the interface [DoubleOps],
    so that every function below is written once, the way the source writes
    it, and can be read in two arithmetics:
    - [binary64]: IEEE 754 double precision, the kernel's primitive floats,
      which is what the compiled program computes with;
    - [exact]: the real numbers, the idealisation in which the numeric
      statements about square roots, sines and linear maps are made.

    The C++ type [int] is [Z]; a conversion from [double] to an integer type
    that does not fit is undefined in C++ and is [None] here. *)

From Stdlib Require Import Floats.
From Stdlib Require Import ZArith QArith Qreals Reals Lra Lia Bool List.
From stdpp Require Import base list.

Set Default Proof Using "Type".
Local Open Scope Z_scope.

(** ** The arithmetic of [double] *)

Class DoubleOps (D : Type) := {
  (** a decimal literal of the source, given as the fraction it denotes *)
  dlit : Q -> D;
  (** the implicit conversion [int -> double] *)
  of_int : Z -> D;
  dadd : D -> D -> D;
  dsub : D -> D -> D;
  dmul : D -> D -> D;
  ddiv : D -> D -> D;
  (** [a < b] and [a == b] on doubles *)
  dltb : D -> D -> bool;
  deqb : D -> D -> bool;
  (** [sqrt] of <cmath> *)
  dsqrt : D -> D;
  (** the integer part, rounding toward zero; [None] when there is none
      (infinities and NaN) *)
  dtrunc : D -> option Z
}.

(** What the program takes from libm and <complex>, beyond IEEE arithmetic. *)
Class LibmOps (D : Type) := {
  dsin : D -> D;
  M_PI : D;
  (** [std::abs] of a [std::complex<double>], given its two parts *)
  dhypot : D -> D -> D
}.

Declare Scope double_scope.
Delimit Scope double_scope with D.
Notation "a + b" := (dadd a b) : double_scope.
Notation "a - b" := (dsub a b) : double_scope.
Notation "a * b" := (dmul a b) : double_scope.
Notation "a / b" := (ddiv a b) : double_scope.
Notation "a <? b" := (dltb a b) : double_scope.
Notation "a =? b" := (deqb a b) : double_scope.

(** *** IEEE 754 binary64 *)

Definition float_of_int (z : Z) : float :=
  if z <? 0 then PrimFloat.opp (PrimFloat.of_uint63 (Uint63.of_Z (- z)))
  else PrimFloat.of_uint63 (Uint63.of_Z z).

(** A literal [n/d] with [n] and [d] below [2^53] is the correctly rounded
    quotient of two exactly represented integers, that is, the double nearest
    to the decimal literal. *)
Definition float_lit (q : Q) : float :=
  PrimFloat.div (float_of_int (Qnum q)) (float_of_int (Zpos (Qden q))).

Definition float_trunc (f : float) : option Z :=
  match Prim2SF f with
  | S754_zero _ => Some 0
  | S754_finite s m e =>
      let a := if 0 <=? e then Zpos m * 2 ^ e else Zpos m / 2 ^ (- e) in
      Some (if s then - a else a)
  | S754_infinity _ | S754_nan => None
  end.

#[export] Instance binary64 : DoubleOps float := {|
  dlit := float_lit;
  of_int := float_of_int;
  dadd := PrimFloat.add;
  dsub := PrimFloat.sub;
  dmul := PrimFloat.mul;
  ddiv := PrimFloat.div;
  dltb := PrimFloat.ltb;
  deqb := PrimFloat.eqb;
  dsqrt := PrimFloat.sqrt;
  dtrunc := float_trunc
|}.

(** *** Exact real arithmetic *)

Definition Rltb (a b : R) : bool := if Rlt_dec a b then true else false.
Definition Reqb (a b : R) : bool := if Req_dec_T a b then true else false.

(** [Int_part] is the floor; truncation is the floor of the magnitude. *)
Definition Rtrunc (x : R) : Z :=
  if Rle_dec 0 x then Int_part x else - Int_part (- x).

#[export] Instance exact : DoubleOps R := {|
  dlit := Q2R;
  of_int := IZR;
  dadd := Rplus;
  dsub := Rminus;
  dmul := Rmult;
  ddiv := Rdiv;
  dltb := Rltb;
  deqb := Reqb;
  dsqrt := sqrt;
  dtrunc := fun x => Some (Rtrunc x)
|}.

#[export] Instance exact_libm : LibmOps R := {|
  dsin := sin;
  M_PI := PI;
  dhypot := fun x y => sqrt (x * x + y * y)%R
|}.

(** ** Conversions to the integer types *)

(** [static_cast<T>(d)] for a signed [T] of [w] bits. *)
Definition cast_signed {D} `{DoubleOps D} (w : Z) (d : D) : option Z :=
  match dtrunc d with
  | Some z => if (- 2 ^ (w - 1) <=? z) && (z <? 2 ^ (w - 1)) then Some z else None
  | None => None
  end.

(** [static_cast<T>(d)] for an unsigned [T] of [w] bits. *)
Definition cast_unsigned {D} `{DoubleOps D} (w : Z) (d : D) : option Z :=
  match dtrunc d with
  | Some z => if (0 <=? z) && (z <? 2 ^ w) then Some z else None
  | None => None
  end.

(** ** The programs *)

Section Program.
Context {D : Type} `{DoubleOps D}.
Local Open Scope double_scope.

(** [mapValue], the same in both files. *)
Definition mapValue (value inMin inMax outMin outMax : D) : D :=
  outMin + (outMax - outMin) * ((value - inMin) / (inMax - inMin)).

(** The [while] loop of [calculateMandelbrot] in 2man.cpp. Each unfolding
    is one evaluation of the loop test, followed by the body when the test
    holds; [fuel] bounds the number of tests. *)
Fixpoint mandel_loop (fuel : nat) (real imag x y x2 y2 : D)
    (iteration maxIter : Z) : Z :=
  match fuel with
  | O => iteration
  | S fuel' =>
      if (x2 + y2 <? dlit 4) && (iteration <? maxIter)%Z then
        let y := of_int 2 * x * y + imag in
        let x := x2 - y2 + real in
        let x2 := x * x in
        let y2 := y * y in
        mandel_loop fuel' real imag x y x2 y2 (iteration + 1)%Z maxIter
      else iteration
  end.

(** 2man.cpp, [calculateMandelbrot]. The counter starts at 0 and the test
    fails at [maxIter], so [maxIter] unfoldings run the loop to its end
    (see [mandel_loop_fuel]). *)
Definition calculateMandelbrot (real imag : D) (maxIter : Z) : Z :=
  mandel_loop (Z.to_nat maxIter) real imag
    (of_int 0) (of_int 0) (of_int 0) (of_int 0) 0%Z maxIter.

(** *** The tile renderer *)

(** The implicit conversion [double -> Uint8] of [r = value * 255]. Only
    products by 255 of numbers between 0 and 1 are converted; the last
    case stands for a conversion C++ leaves undefined. *)
Definition to_Uint8 (d : D) : Z :=
  match cast_unsigned 8 d with Some z => z | None => 0%Z end.

(** [static_cast<int>(h)] for the sector of the hue, [0 <= h < 6]. *)
Definition to_int (d : D) : Z :=
  match cast_signed 32 d with Some z => z | None => 0%Z end.

(** Lines 124-150 of 2man.cpp: the colour of an iteration count, as the
    three bytes [r], [g], [b]. *)
Definition iterationColor (iterations maxIterations : Z) : Z * Z * Z :=
  if (iterations =? maxIterations)%Z then (0, 0, 0)%Z
  else
    let hue :=
      mapValue (of_int (Z.rem iterations 64)) (of_int 0) (of_int 64)
               (of_int 0) (of_int 1) in
    let saturation := dlit (8 # 10) in
    let value := if (iterations <? maxIterations)%Z then dlit 1 else dlit 0 in
    let h := hue * dlit 6 in
    let i := to_int h in
    let f := h - of_int i in
    let p := value * (dlit 1 - saturation) in
    let q := value * (dlit 1 - saturation * f) in
    let t := value * (dlit 1 - saturation * (dlit 1 - f)) in
    let c255 := of_int 255 in
    match Z.rem i 6 with
    | 0%Z => (to_Uint8 (value * c255), to_Uint8 (t * c255), to_Uint8 (p * c255))
    | 1%Z => (to_Uint8 (q * c255), to_Uint8 (value * c255), to_Uint8 (p * c255))
    | 2%Z => (to_Uint8 (p * c255), to_Uint8 (value * c255), to_Uint8 (t * c255))
    | 3%Z => (to_Uint8 (p * c255), to_Uint8 (q * c255), to_Uint8 (value * c255))
    | 4%Z => (to_Uint8 (t * c255), to_Uint8 (p * c255), to_Uint8 (value * c255))
    | 5%Z => (to_Uint8 (value * c255), to_Uint8 (p * c255), to_Uint8 (q * c255))
    | _ => (0, 0, 0)%Z
    end.

(** [(r) | (g << 8) | (b << 16) | (255 << 24)], stored as a [Uint32]. *)
Definition packRGBA (rgb : Z * Z * Z) : Z :=
  let '(r, g, b) := rgb in
  (Z.lor r (Z.lor (Z.shiftl g 8) (Z.lor (Z.shiftl b 16) (Z.shiftl 255 24))))
    mod 2 ^ 32.

(** The body of the two loops of [renderMandelbrotSection]: the value
    stored for the pixel in column [x] of row [y]. *)
Definition pixelColor (width height : Z) (xMin xMax yMin yMax : D)
    (maxIterations : Z) (x y : Z) : Z :=
  let real := mapValue (of_int x) (of_int 0) (of_int width) xMin xMax in
  let imag := mapValue (of_int y) (of_int 0) (of_int height) yMin yMax in
  let iterations := calculateMandelbrot real imag maxIterations in
  packRGBA (iterationColor iterations maxIterations).

(** A store [pixels[index] = value]. *)
Definition write : Type := nat * Z.

(** The stores of [renderMandelbrotSection], in program order: rows
    [startY <= y < endY], and in each row the columns [0 <= x < width]. *)
Definition renderMandelbrotSection_writes (startY endY width height : Z)
    (xMin xMax yMin yMax : D) (maxIterations : Z) : list write :=
  y ← seqZ startY (endY - startY);
  (fun x => (Z.to_nat (y * width + x),
             pixelColor width height xMin xMax yMin yMax maxIterations x y))
    <$> seqZ 0 width.

(** Stores applied to the buffer, first to last. Every store of the
    program is inside the buffer; a store outside would be left out. *)
Definition store (pixels : list Z) (ws : list write) : list Z :=
  foldl (fun p (w : write) => <[w.1 := w.2]> p) pixels ws.

(** 2man.cpp, [renderMandelbrotSection]: one worker, run on its own. *)
Definition renderMandelbrotSection (pixels : list Z)
    (startY endY width height : Z) (xMin xMax yMin yMax : D)
    (maxIterations : Z) : list Z :=
  store pixels
    (renderMandelbrotSection_writes startY endY width height
       xMin xMax yMin yMax maxIterations).

(** *** The render orchestrator *)

Definition SCREEN_WIDTH : Z := 800.
Definition SCREEN_HEIGHT : Z := 600.

(** The globals of 2man.cpp, and [screen], the raster last handed to
    [SDL_UpdateTexture]. *)
Record State : Type := mkState {
  MAX_ITERATIONS : Z;
  xMin : D; xMax : D; yMin : D; yMax : D;
  prev_xMin : D; prev_xMax : D; prev_yMin : D; prev_yMax : D;
  needsUpdate : bool;
  isHighQuality : bool;
  isRenderingHighQuality : bool;
  screen : list Z
}.

(** The row range of worker [i], lines 183-184. *)
Definition section_rows (NUM_THREADS i : Z) : Z * Z :=
  let sectionHeight := Z.quot SCREEN_HEIGHT NUM_THREADS in
  let startY := (i * sectionHeight)%Z in
  let endY :=
    if (i =? NUM_THREADS - 1)%Z then SCREEN_HEIGHT
    else (startY + sectionHeight)%Z in
  (startY, endY).

(** The stores of each of the [NUM_THREADS] workers, lines 182-191. *)
Definition thread_traces (NUM_THREADS : Z) (xMin xMax yMin yMax : D)
    (localMaxIterations : Z) : list (list write) :=
  (fun i =>
     let '(startY, endY) := section_rows NUM_THREADS i in
     renderMandelbrotSection_writes startY endY SCREEN_WIDTH SCREEN_HEIGHT
       xMin xMax yMin yMax localMaxIterations)
    <$> seqZ 0 NUM_THREADS.

(** The workers run in parallel on one buffer: the stores of each reach
    memory in its program order, and the stores of different workers in
    any order. *)
Inductive interleaving {A : Type} : list (list A) -> list A -> Prop :=
| interleaving_done ts :
    Forall (fun t => t = []) ts -> interleaving ts []
| interleaving_step ts k a t sched :
    ts !! k = Some (a :: t) ->
    interleaving (<[k := t]> ts) sched ->
    interleaving ts (a :: sched).

(** A scheduler picks, for the stores of the workers of a pass, one of
    their interleavings. *)
Definition scheduler (schedule : list (list write) -> list write) : Prop :=
  forall ts, interleaving ts (schedule ts).

(** 2man.cpp, [renderMandelbrot]. [pixels] is the content of the buffer
    [new Uint32[...]] returns, which is not initialised, and [schedule]
    the order in which the stores of the workers reach it before the join.
    What goes to [SDL_UpdateTexture] is kept in [screen]. *)
Definition renderMandelbrot (NUM_THREADS : Z) (pixels : list Z)
    (schedule : list (list write) -> list write) (highQuality : bool)
    (st : State) : State :=
  if highQuality && negb (needsUpdate st) &&
     (prev_xMin st =? xMin st) && (prev_xMax st =? xMax st) &&
     (prev_yMin st =? yMin st) && (prev_yMax st =? yMax st)
  then st
  else
    let localMaxIterations :=
      if highQuality then MAX_ITERATIONS st
      else Z.quot (MAX_ITERATIONS st) 4 in
    let threads :=
      thread_traces NUM_THREADS (xMin st) (xMax st) (yMin st) (yMax st)
        localMaxIterations in
    let pixels := store pixels (schedule threads) in
    {| MAX_ITERATIONS := MAX_ITERATIONS st;
       xMin := xMin st; xMax := xMax st; yMin := yMin st; yMax := yMax st;
       prev_xMin := xMin st; prev_xMax := xMax st;
       prev_yMin := yMin st; prev_yMax := yMax st;
       needsUpdate := if highQuality then false else needsUpdate st;
       isHighQuality := if highQuality then true else isHighQuality st;
       isRenderingHighQuality :=
         if highQuality then false else isRenderingHighQuality st;
       screen := pixels |}.

(** *** The iteration controller *)

(** 2man.cpp, [updateIterations]; [None] when the conversion to [int] of
    line 224 is undefined. *)
Definition updateIterations (st : State) : option State :=
  let initialRange := dlit (35 # 10) in
  let currentRange := xMax st - xMin st in
  let zoomLevel := initialRange / currentRange in
  m ← cast_signed 32 (of_int 100 * dsqrt zoomLevel);
  let m := if (m <? 100)%Z then 100%Z else m in
  let m := if (m >? 2000)%Z then 2000%Z else m in
  Some {| MAX_ITERATIONS := m;
          xMin := xMin st; xMax := xMax st; yMin := yMin st; yMax := yMax st;
          prev_xMin := prev_xMin st; prev_xMax := prev_xMax st;
          prev_yMin := prev_yMin st; prev_yMax := prev_yMax st;
          needsUpdate := needsUpdate st;
          isHighQuality := isHighQuality st;
          isRenderingHighQuality := isRenderingHighQuality st;
          screen := screen st |}.

(** *** The wheel event *)

(** Lines 316-330 of [main]: the new bounds after a wheel event with
    [e.wheel.y = wheel_y] and the mouse at [(mouseX, mouseY)]. *)
Definition zoomViewport (wheel_y mouseX mouseY : Z) (st : State) : State :=
  let centerReal :=
    mapValue (of_int mouseX) (of_int 0) (of_int SCREEN_WIDTH)
             (xMin st) (xMax st) in
  let centerImag :=
    mapValue (of_int mouseY) (of_int 0) (of_int SCREEN_HEIGHT)
             (yMin st) (yMax st) in
  let zoomFactor := if (wheel_y >? 0)%Z then dlit (8 # 10) else dlit (125 # 100) in
  let newWidth := (xMax st - xMin st) * zoomFactor in
  let newHeight := (yMax st - yMin st) * zoomFactor in
  {| MAX_ITERATIONS := MAX_ITERATIONS st;
     xMin := centerReal - newWidth / of_int 2;
     xMax := centerReal + newWidth / of_int 2;
     yMin := centerImag - newHeight / of_int 2;
     yMax := centerImag + newHeight / of_int 2;
     prev_xMin := prev_xMin st; prev_xMax := prev_xMax st;
     prev_yMin := prev_yMin st; prev_yMax := prev_yMax st;
     needsUpdate := needsUpdate st;
     isHighQuality := isHighQuality st;
     isRenderingHighQuality := isRenderingHighQuality st;
     screen := screen st |}.

(** Lines 335-337. *)
Definition markForRedraw (st : State) : State :=
  {| MAX_ITERATIONS := MAX_ITERATIONS st;
     xMin := xMin st; xMax := xMax st; yMin := yMin st; yMax := yMax st;
     prev_xMin := prev_xMin st; prev_xMax := prev_xMax st;
     prev_yMin := prev_yMin st; prev_yMax := prev_yMax st;
     needsUpdate := true;
     isHighQuality := false;
     isRenderingHighQuality := isRenderingHighQuality st;
     screen := screen st |}.

(** The [SDL_MOUSEWHEEL] branch of the event loop, lines 312-342. *)
Definition onMouseWheel (NUM_THREADS : Z) (pixels : list Z)
    (schedule : list (list write) -> list write)
    (wheel_y mouseX mouseY : Z) (st : State) : option State :=
  st ← updateIterations (zoomViewport wheel_y mouseX mouseY st);
  Some (renderMandelbrot NUM_THREADS pixels schedule false (markForRedraw st)).

(** The viewport invariant of the specification. *)
Definition viewport_ok (st : State) : Prop :=
  (xMin st <? xMax st) = true /\ (yMin st <? yMax st) = true.


(** *** The synthesizer *)

Context `{LibmOps D}.

Definition SAMPLE_RATE : Z := 44100.

(** Lines 69-75 of [createMandelbrotSound]: the local [primaryFreq], for
    the current value of the global [MAX_ITERATIONS]. *)
Definition primaryFreq (MAX_ITERATIONS iterations : Z) : D :=
  if (iterations >=? MAX_ITERATIONS)%Z then dlit 110
  else mapValue (of_int iterations) (of_int 0) (of_int MAX_ITERATIONS)
                (dlit 220) (dlit 880).

(** Lines 86-100: the amplitude envelope at [time]. *)
Definition envelope (duration time : D) : D :=
  let attackTime := dlit (5 # 100) in
  let decayTime := dlit (1 # 10) in
  let sustainLevel := dlit (7 # 10) in
  let releaseTime := dlit (3 # 10) in
  if time <? attackTime then time / attackTime
  else if time <? attackTime + decayTime then
    dlit 1 - (dlit 1 - sustainLevel) * ((time - attackTime) / decayTime)
  else if time <? duration - releaseTime then sustainLevel
  else
    sustainLevel *
    (dlit 1 - (time - (duration - releaseTime)) / releaseTime).

(** Lines 85-108: the body of the sample loop, the value stored in
    [buffer[i]]; [None] when the conversion to [Sint16] is undefined. *)
Definition soundSample
    (primaryFreq secondaryFreq1 secondaryFreq2 harmonicFreq duration : D)
    (i : Z) : option Z :=
  let time := of_int i / of_int SAMPLE_RATE in
  let sample := dlit (5 # 10) * dsin (dlit 2 * M_PI * primaryFreq * time) in
  let sample :=
    sample + dlit (25 # 100) * dsin (dlit 2 * M_PI * secondaryFreq1 * time) in
  let sample :=
    sample + dlit (15 # 100) * dsin (dlit 2 * M_PI * secondaryFreq2 * time) in
  let sample :=
    sample + dlit (1 # 10) * dsin (dlit 2 * M_PI * harmonicFreq * time) in
  let sample := sample * envelope duration time in
  cast_signed 16 (sample * of_int 32767).

(** 2man.cpp, [createMandelbrotSound], for the current value of the global
    [MAX_ITERATIONS]. *)
Definition createMandelbrotSound (MAX_ITERATIONS iterations : Z)
    (real imag : D) : option (list Z) :=
  let duration := dlit 1 in
  let primaryFreq := primaryFreq MAX_ITERATIONS iterations in
  let secondaryFreq1 := primaryFreq * (dlit 1 + real * dlit (1 # 10)) in
  let secondaryFreq2 := primaryFreq * (dlit 1 + imag * dlit (1 # 10)) in
  let harmonicFreq := primaryFreq * dlit (15 # 10) in
  sampleCount ← cast_signed 32 (of_int SAMPLE_RATE * duration);
  mapM (soundSample primaryFreq secondaryFreq1 secondaryFreq2 harmonicFreq
          duration)
       (seqZ 0 sampleCount).

(** *** The loop of [main] *)

Definition RENDER_DELAY : Z := 50.

(** The globals as 2man.cpp initialises them, lines 13 and 24-38; no raster
    has been shown yet. *)
Definition startState : State :=
  {| MAX_ITERATIONS := 100;
     xMin := dlit (-25 # 10); xMax := dlit 1;
     yMin := dlit (-15 # 10); yMax := dlit (15 # 10);
     prev_xMin := dlit 0; prev_xMax := dlit 0;
     prev_yMin := dlit 0; prev_yMax := dlit 0;
     needsUpdate := true;
     isHighQuality := false;
     isRenderingHighQuality := false;
     screen := [] |}.

(** The globals with the locals [lastRenderTime] and [quit] of [main]. *)
Record Loop : Type := mkLoop {
  globals : State;
  lastRenderTime : Z;
  quit : bool
}.

(** Lines 277-283: the first pass, of low quality, and the locals. *)
Definition startLoop (NUM_THREADS : Z) (pixels : list Z)
    (schedule : list (list write) -> list write) : Loop :=
  mkLoop (renderMandelbrot NUM_THREADS pixels schedule false startState) 0 false.

(** The [SDL_MOUSEWHEEL] branch with its last line, 341: [ticks] is what
    [SDL_GetTicks] returns after the pass. *)
Definition wheelEvent (NUM_THREADS : Z) (pixels : list Z)
    (schedule : list (list write) -> list write)
    (wheel_y mouseX mouseY ticks : Z) (l : Loop) : option Loop :=
  st ← onMouseWheel NUM_THREADS pixels schedule wheel_y mouseX mouseY
         (globals l);
  Some (mkLoop st ticks (quit l)).

(** Line 349. *)
Definition startHighQuality (st : State) : State :=
  {| MAX_ITERATIONS := MAX_ITERATIONS st;
     xMin := xMin st; xMax := xMax st; yMin := yMin st; yMax := yMax st;
     prev_xMin := prev_xMin st; prev_xMax := prev_xMax st;
     prev_yMin := prev_yMin st; prev_yMax := prev_yMax st;
     needsUpdate := needsUpdate st;
     isHighQuality := isHighQuality st;
     isRenderingHighQuality := true;
     screen := screen st |}.

(** Lines 345-351: the check made once per iteration of the loop, at the
    time [currentTime] of [SDL_GetTicks]. The difference of the two [Uint32]
    times wraps around. *)
Definition twoPhaseCheck (NUM_THREADS : Z) (pixels : list Z)
    (schedule : list (list write) -> list write) (currentTime : Z)
    (l : Loop) : Loop :=
  let st := globals l in
  if needsUpdate st && negb (isHighQuality st) &&
     negb (isRenderingHighQuality st) &&
     ((currentTime - lastRenderTime l) mod 2 ^ 32 >? RENDER_DELAY)%Z
  then
    mkLoop
      (renderMandelbrot NUM_THREADS pixels schedule true (startHighQuality st))
      (lastRenderTime l) (quit l)
  else l.

(** What one handled event or one check does to the globals and locals.
    A click queues a sound and prints a line, and changes none of them;
    neither does an event of another type. Every pass gets a buffer of the
    size of the raster and its own schedule. *)
Inductive loop_step (NUM_THREADS : Z) : Loop -> Loop -> Prop :=
| step_quit l :
    loop_step NUM_THREADS l (mkLoop (globals l) (lastRenderTime l) true)
| step_click l :
    loop_step NUM_THREADS l l
| step_wheel l l' pixels schedule wheel_y mouseX mouseY ticks :
    length pixels = Z.to_nat (SCREEN_WIDTH * SCREEN_HEIGHT) ->
    scheduler schedule ->
    wheelEvent NUM_THREADS pixels schedule wheel_y mouseX mouseY ticks l
      = Some l' ->
    loop_step NUM_THREADS l l'
| step_check l pixels schedule currentTime :
    length pixels = Z.to_nat (SCREEN_WIDTH * SCREEN_HEIGHT) ->
    scheduler schedule ->
    loop_step NUM_THREADS l
      (twoPhaseCheck NUM_THREADS pixels schedule currentTime l).

(** The states of the loop: after the first pass, and after any number of
    events and checks. *)
Inductive reachable (NUM_THREADS : Z) : Loop -> Prop :=
| reachable_start pixels schedule :
    length pixels = Z.to_nat (SCREEN_WIDTH * SCREEN_HEIGHT) ->
    scheduler schedule ->
    reachable NUM_THREADS (startLoop NUM_THREADS pixels schedule)
| reachable_step l l' :
    reachable NUM_THREADS l ->
    loop_step NUM_THREADS l l' ->
    reachable NUM_THREADS l'.

End Program.

(** ** man.cpp *)

Module Man.
Section Man.
Context {D : Type} `{DoubleOps D} `{LibmOps D}.
Local Open Scope double_scope.

Definition MAX_ITERATIONS : Z := 1000.

(** *** The evaluator of man.cpp *)

(** [std::complex<double>] with its sum, product and modulus. *)
Record complex : Type := mkComplex { re : D; im : D }.

Definition cadd (a b : complex) : complex :=
  mkComplex (re a + re b) (im a + im b).

Definition cmul (a b : complex) : complex :=
  mkComplex (re a * re b - im a * im b) (re a * im b + im a * re b).

Definition cabs (z : complex) : D := dhypot (re z) (im z).

(** The [while] loop of [calculateMandelbrot] in man.cpp. *)
Fixpoint mandel_loop (fuel : nat) (c z : complex) (iteration : Z) : Z :=
  match fuel with
  | O => iteration
  | S fuel' =>
      if (cabs z <? dlit 2) && (iteration <? MAX_ITERATIONS)%Z then
        mandel_loop fuel' c (cadd (cmul z z) c) (iteration + 1)%Z
      else iteration
  end.

(** man.cpp, [calculateMandelbrot]. *)
Definition calculateMandelbrot (real imag : D) : Z :=
  mandel_loop (Z.to_nat MAX_ITERATIONS)
    (mkComplex real imag) (mkComplex (of_int 0) (of_int 0)) 0%Z.

(** *** The renderer of man.cpp *)

Definition SCREEN_WIDTH : Z := 800.
Definition SCREEN_HEIGHT : Z := 600.

(** man.cpp, [createRGBA]: four bytes packed into a [Uint32]. *)
Definition createRGBA (r g b a : Z) : Z :=
  (Z.lor (Z.lor (Z.lor (Z.shiftl r 0) (Z.shiftl g 8)) (Z.shiftl b 16))
         (Z.shiftl a 24)) mod 2 ^ 32.

(** The globals [xMin], [xMax], [yMin], [yMax] of man.cpp. *)
Record View : Type := mkView { xMin : D; xMax : D; yMin : D; yMax : D }.

(** Lines 128-150: the colour of an iteration count. The [switch] has no
    default: the last case stands for [r], [g], [b] left uninitialised, which
    a sector [i % 6] outside 0..5 would give. *)
Definition iterationColor (iterations : Z) : Z * Z * Z :=
  if (iterations =? MAX_ITERATIONS)%Z then (0, 0, 0)%Z
  else
    let hue :=
      mapValue (of_int (Z.rem iterations 64)) (of_int 0) (of_int 64)
               (of_int 0) (of_int 1) in
    let h := hue * dlit 6 in
    let i := to_int h in
    let f := h - of_int i in
    let q := dlit 1 - f in
    let c255 := of_int 255 in
    match Z.rem i 6 with
    | 0%Z => (255, to_Uint8 (f * c255), 0)
    | 1%Z => (to_Uint8 (q * c255), 255, 0)
    | 2%Z => (0, 255, to_Uint8 (f * c255))
    | 3%Z => (0, to_Uint8 (q * c255), 255)
    | 4%Z => (to_Uint8 (f * c255), 0, 255)
    | 5%Z => (255, 0, to_Uint8 (q * c255))
    | _ => (0, 0, 0)%Z
    end.

(** Lines 123-152: the value stored for the pixel in column [x] of row
    [y]. *)
Definition pixelColor (v : View) (x y : Z) : Z :=
  let real := mapValue (of_int x) (of_int 0) (of_int SCREEN_WIDTH)
                (xMin v) (xMax v) in
  let imag := mapValue (of_int y) (of_int 0) (of_int SCREEN_HEIGHT)
                (yMin v) (yMax v) in
  let iterations := calculateMandelbrot real imag in
  let '(r, g, b) := iterationColor iterations in
  createRGBA r g b 255.

(** The stores of the two loops of [renderMandelbrot], lines 121-154. *)
Definition renderMandelbrot_writes (v : View) : list write :=
  y ← seqZ 0 SCREEN_HEIGHT;
  (fun x => (Z.to_nat (y * SCREEN_WIDTH + x), pixelColor v x y))
    <$> seqZ 0 SCREEN_WIDTH.

(** man.cpp, [renderMandelbrot]: the raster handed to [SDL_UpdateTexture],
    from the content [pixels] of the fresh buffer. *)
Definition renderMandelbrot (pixels : list Z) (v : View) : list Z :=
  store pixels (renderMandelbrot_writes v).

(** Lines 260-278 of [main]: the new bounds after a wheel event. *)
Definition zoomViewport (wheel_y mouseX mouseY : Z) (v : View) : View :=
  let centerReal :=
    mapValue (of_int mouseX) (of_int 0) (of_int SCREEN_WIDTH)
             (xMin v) (xMax v) in
  let centerImag :=
    mapValue (of_int mouseY) (of_int 0) (of_int SCREEN_HEIGHT)
             (yMin v) (yMax v) in
  let zoomFactor := if (wheel_y >? 0)%Z then dlit (5 # 10) else dlit 2 in
  let newWidth := (xMax v - xMin v) * zoomFactor in
  let newHeight := (yMax v - yMin v) * zoomFactor in
  mkView (centerReal - newWidth / of_int 2) (centerReal + newWidth / of_int 2)
         (centerImag - newHeight / of_int 2) (centerImag + newHeight / of_int 2).

(** *** The synthesiser of man.cpp *)

Definition SAMPLE_RATE : Z := 44100.

(** Lines 51-59 of [createMandelbrotSound]: the local [primaryFreq]. *)
Definition primaryFreq (iterations : Z) : D :=
  if (iterations >=? MAX_ITERATIONS)%Z then dlit 110
  else mapValue (of_int iterations) (of_int 0) (of_int MAX_ITERATIONS)
                (dlit 220) (dlit 880).

(** Lines 74-92: the amplitude envelope at [time]. *)
Definition envelope (duration time : D) : D :=
  let attackTime := dlit (1 # 10) in
  let decayTime := dlit (2 # 10) in
  let sustainLevel := dlit (7 # 10) in
  let releaseTime := dlit (5 # 10) in
  if time <? attackTime then time / attackTime
  else if time <? attackTime + decayTime then
    dlit 1 - (dlit 1 - sustainLevel) * ((time - attackTime) / decayTime)
  else if time <? duration - releaseTime then sustainLevel
  else
    sustainLevel *
    (dlit 1 - (time - (duration - releaseTime)) / releaseTime).

(** Lines 71-110: the body of the sample loop, the value stored in
    [buffer[i]]; [None] when the conversion to [Sint16] is undefined. *)
Definition soundSample
    (primaryFreq secondaryFreq1 secondaryFreq2 harmonicFreq duration : D)
    (i : Z) : option Z :=
  let time := of_int i / of_int SAMPLE_RATE in
  let sample := dlit (5 # 10) * dsin (dlit 2 * M_PI * primaryFreq * time) in
  let sample :=
    sample + dlit (25 # 100) * dsin (dlit 2 * M_PI * secondaryFreq1 * time) in
  let sample :=
    sample + dlit (15 # 100) * dsin (dlit 2 * M_PI * secondaryFreq2 * time) in
  let sample :=
    sample + dlit (1 # 10) * dsin (dlit 2 * M_PI * harmonicFreq * time) in
  let vibratoFreq := dlit 6 in
  let vibratoAmount := dlit (1 # 100) in
  let vibrato := dsin (dlit 2 * M_PI * vibratoFreq * time) * vibratoAmount in
  let sample :=
    sample +
    vibrato * dsin (dlit 2 * M_PI * primaryFreq * (dlit 1 + vibrato) * time) in
  let sample := sample * envelope duration time in
  cast_signed 16 (sample * of_int 32767).

(** man.cpp, [createMandelbrotSound]. *)
Definition createMandelbrotSound (iterations : Z) (real imag : D)
    : option (list Z) :=
  let duration := dlit (15 # 10) in
  let primaryFreq := primaryFreq iterations in
  let secondaryFreq1 := primaryFreq * (dlit 1 + real * dlit (1 # 10)) in
  let secondaryFreq2 := primaryFreq * (dlit 1 + imag * dlit (1 # 10)) in
  let harmonicFreq := primaryFreq * dlit (15 # 10) in
  sampleCount ← cast_signed 32 (of_int SAMPLE_RATE * duration);
  mapM (soundSample primaryFreq secondaryFreq1 secondaryFreq2 harmonicFreq
          duration)
       (seqZ 0 sampleCount).

End Man.
End Man.

(** ** What the results are stated with *)

(** *** The contracts of the specification *)

(** The iteration budget, on real numbers:
    [clamp(100 * sqrt(referenceWidth / currentWidth), 100, 2000)] with the
    reference width 3.5. *)
Definition clamp (v lo hi : R) : R := Rmax lo (Rmin v hi).

Definition budget_spec (currentWidth : R) : R :=
  clamp (100 * sqrt (3.5 / currentWidth)) 100 2000.

(** The linear map of the primary frequency: [v] taken from
    [[inLo, inHi]] to [[outLo, outHi]]. *)
Definition linear_map (v inLo inHi outLo outHi : R) : R :=
  (outLo + (v - inLo) / (inHi - inLo) * (outHi - outLo))%R.

(** The pixel that belongs at index [j] of a raster [width] pixels wide. *)
Definition pixel_at {D : Type} `{DoubleOps D} (width height : Z)
    (xMin xMax yMin yMax : D) (maxIterations : Z) (j : nat) : Z :=
  pixelColor width height xMin xMax yMin yMax maxIterations
    (Z.of_nat j mod width) (Z.of_nat j / width).

(** The 800 x 600 raster of a view and a budget, pixel by pixel. *)
Definition raster {D : Type} `{DoubleOps D} (xMin xMax yMin yMax : D)
    (maxIterations : Z) : list Z :=
  pixel_at SCREEN_WIDTH SCREEN_HEIGHT xMin xMax yMin yMax maxIterations
    <$> seq 0 (Z.to_nat (SCREEN_WIDTH * SCREEN_HEIGHT)).

(** *** Loop states on the two bounded orbits *)

(** The orbit of 0 is the fixed point 0; the orbit of -1 alternates
    between 0 and -1. In double precision every operation involved is
    exact. *)
Definition orbit_zero (x y x2 y2 : float) : Prop :=
  (x = 0 /\ y = 0 /\ x2 = 0 /\ y2 = 0)%float.

Definition orbit_minus_one (x y x2 y2 : float) : Prop :=
  ((x = 0 /\ y = 0 /\ x2 = 0 /\ y2 = 0) \/
   (x = -1 /\ y = 0 /\ x2 = 1 /\ y2 = 0))%float.

Definition exact_orbit_zero (x y x2 y2 : R) : Prop :=
  (x = 0 /\ y = 0 /\ x2 = 0 /\ y2 = 0)%R.

Definition exact_orbit_minus_one (x y x2 y2 : R) : Prop :=
  ((x = 0 /\ y = 0 /\ x2 = 0 /\ y2 = 0) \/
   (x = -1 /\ y = 0 /\ x2 = 1 /\ y2 = 0))%R.

(** *** States of the program *)

(** The initial values of the globals of 2man.cpp, before the first pass. *)
Definition initial_state : State (D := float) :=
  {| MAX_ITERATIONS := 100;
     xMin := (-2.5)%float; xMax := 1%float;
     yMin := (-1.5)%float; yMax := 1.5%float;
     prev_xMin := 0%float; prev_xMax := 0%float;
     prev_yMin := 0%float; prev_yMax := 0%float;
     needsUpdate := true;
     isHighQuality := false;
     isRenderingHighQuality := false;
     screen := [] |}.

(** The state after a precise pass of the initial view. *)
Definition idle_state : State (D := float) :=
  {| MAX_ITERATIONS := 100;
     xMin := (-2.5)%float; xMax := 1%float;
     yMin := (-1.5)%float; yMax := 1.5%float;
     prev_xMin := (-2.5)%float; prev_xMax := 1%float;
     prev_yMin := (-1.5)%float; prev_yMax := 1.5%float;
     needsUpdate := false;
     isHighQuality := true;
     isRenderingHighQuality := false;
     screen := [] |}.

(** A view one unit in the last place wide: [xMax] is the double that
    follows [xMin = 1.5]. *)
Definition narrow_state : State (D := float) :=
  {| MAX_ITERATIONS := 2000;
     xMin := 1.5%float; xMax := 0x1.8000000000001p+0%float;
     yMin := (-1.5)%float; yMax := 1.5%float;
     prev_xMin := 0%float; prev_xMax := 0%float;
     prev_yMin := 0%float; prev_yMax := 0%float;
     needsUpdate := true;
     isHighQuality := false;
     isRenderingHighQuality := false;
     screen := [] |}.

(** A view [w] wide, in double precision and in exact arithmetic. *)
Definition binary64_view (w : float) : State (D := float) :=
  {| MAX_ITERATIONS := 100;
     xMin := 0%float; xMax := w; yMin := (-1.5)%float; yMax := 1.5%float;
     prev_xMin := 0%float; prev_xMax := 0%float;
     prev_yMin := 0%float; prev_yMax := 0%float;
     needsUpdate := true;
     isHighQuality := false;
     isRenderingHighQuality := false;
     screen := [] |}.

Definition exact_view (w : R) : State (D := R) :=
  {| MAX_ITERATIONS := 100;
     xMin := 0%R; xMax := w; yMin := (-1.5)%R; yMax := 1.5%R;
     prev_xMin := 0%R; prev_xMax := 0%R; prev_yMin := 0%R; prev_yMax := 0%R;
     needsUpdate := true;
     isHighQuality := false;
     isRenderingHighQuality := false;
     screen := [] |}.

(** The initial view in exact arithmetic. *)
Definition exact_initial_state : State (D := R) :=
  {| MAX_ITERATIONS := 100;
     xMin := (-2.5)%R; xMax := 1%R; yMin := (-1.5)%R; yMax := 1.5%R;
     prev_xMin := 0%R; prev_xMax := 0%R; prev_yMin := 0%R; prev_yMax := 0%R;
     needsUpdate := true;
     isHighQuality := false;
     isRenderingHighQuality := false;
     screen := [] |}.

(** A value of one colour channel. *)
Definition byte (z : Z) : Prop := 0 <= z < 256.

(** A colour with every channel between 50 and 255 and one channel at
    255. *)
Definition bright (c : Z * Z * Z) : bool :=
  let '(r, g, b) := c in
  (50 <=? r) && (r <=? 255) && (50 <=? g) && (g <=? 255) &&
  (50 <=? b) && (b <=? 255) && (Z.max r (Z.max g b) =? 255).

(** What holds of the globals whenever the loop is between two steps. *)
Definition loop_invariant {D : Type} `{DoubleOps D} (l : Loop) : Prop :=
  let st := globals l in
  isRenderingHighQuality st = false /\
  needsUpdate st = negb (isHighQuality st) /\
  100 <= MAX_ITERATIONS st <= 2000 /\
  (prev_xMin st, prev_xMax st, prev_yMin st, prev_yMax st) =
  (xMin st, xMax st, yMin st, yMax st) /\
  screen st =
  raster (xMin st) (xMax st) (yMin st) (yMax st)
    (if isHighQuality st then MAX_ITERATIONS st
     else Z.quot (MAX_ITERATIONS st) 4).

Ltac literals := unfold Q2R in *; cbn [Qnum Qden] in *.

(** ** Properties of the evaluator *)

Section Evaluator.
Context {D : Type} `{DoubleOps D}.
Local Open Scope double_scope.

Lemma mandel_loop_ge fuel real imag x y x2 y2 it maxIter :
  (it <= mandel_loop fuel real imag x y x2 y2 it maxIter)%Z.
Proof.
  revert x y x2 y2 it.
  induction fuel as [|fuel IH]; intros x y x2 y2 it; simpl; [lia|].
  destruct (_ && _); [|lia].
  etransitivity; [|apply IH]. lia.
Qed.

Lemma mandel_loop_le fuel real imag x y x2 y2 it maxIter :
  (it <= maxIter)%Z ->
  (mandel_loop fuel real imag x y x2 y2 it maxIter <= maxIter)%Z.
Proof.
  revert x y x2 y2 it.
  induction fuel as [|fuel IH]; intros x y x2 y2 it Hit; simpl; [lia|].
  destruct (x2 + y2 <? dlit 4); simpl; [|lia].
  destruct (Z.ltb_spec it maxIter); [|lia].
  apply IH. lia.
Qed.

(** More unfoldings than [maxIter - iteration] change nothing: the loop
    has stopped by then. *)
Lemma mandel_loop_fuel fuel extra real imag x y x2 y2 it maxIter :
  (maxIter - it <= Z.of_nat fuel)%Z ->
  mandel_loop (fuel + extra) real imag x y x2 y2 it maxIter =
  mandel_loop fuel real imag x y x2 y2 it maxIter.
Proof.
  revert x y x2 y2 it.
  induction fuel as [|fuel IH]; intros x y x2 y2 it Hf.
  - destruct extra as [|extra]; simpl; [done|].
    destruct (Z.ltb_spec it maxIter); [lia|].
    by rewrite andb_false_r.
  - simpl. destruct (_ && _); [|done]. apply IH. lia.
Qed.

(** The contract of the evaluator: a count between 0 and the budget. *)
Lemma calculateMandelbrot_range real imag maxIter :
  (0 <= maxIter)%Z ->
  (0 <= calculateMandelbrot real imag maxIter <= maxIter)%Z.
Proof.
  intros Hle. unfold calculateMandelbrot. split.
  - apply mandel_loop_ge.
  - by apply mandel_loop_le.
Qed.

(** The unfoldings [calculateMandelbrot] allows are all the loop needs. *)
Lemma calculateMandelbrot_fuel real imag maxIter extra :
  mandel_loop (Z.to_nat maxIter + extra) real imag
    (of_int 0) (of_int 0) (of_int 0) (of_int 0) 0%Z maxIter =
  calculateMandelbrot real imag maxIter.
Proof. apply mandel_loop_fuel. lia. Qed.

End Evaluator.

(** ** The evaluator on bounded orbits and outside the disc of radius 2 *)

Section EvaluatorOrbits.
Context {D : Type} `{DoubleOps D}.
Local Open Scope double_scope.

(** A set of loop states that passes the escape test and is closed under
    the loop body keeps the loop running up to the budget. *)
Lemma mandel_loop_invariant (P : D -> D -> D -> D -> Prop) real imag :
  (forall x y x2 y2, P x y x2 y2 ->
     (x2 + y2 <? dlit 4) = true /\
     P (x2 - y2 + real) (of_int 2 * x * y + imag)
       ((x2 - y2 + real) * (x2 - y2 + real))
       ((of_int 2 * x * y + imag) * (of_int 2 * x * y + imag))) ->
  forall fuel x y x2 y2 it maxIter,
    P x y x2 y2 ->
    (it + Z.of_nat fuel <= maxIter)%Z ->
    mandel_loop fuel real imag x y x2 y2 it maxIter = (it + Z.of_nat fuel)%Z.
Proof.
  intros Hinv fuel.
  induction fuel as [|fuel IH]; intros x y x2 y2 it maxIter HP Hle.
  - simpl. lia.
  - destruct (Hinv _ _ _ _ HP) as [Htest Hnext].
    cbn [mandel_loop]. rewrite Htest.
    destruct (Z.ltb_spec it maxIter); [|lia].
    cbn [andb]. rewrite (IH _ _ _ _ _ _ Hnext); lia.
Qed.

Lemma calculateMandelbrot_invariant (P : D -> D -> D -> D -> Prop) real imag :
  (forall x y x2 y2, P x y x2 y2 ->
     (x2 + y2 <? dlit 4) = true /\
     P (x2 - y2 + real) (of_int 2 * x * y + imag)
       ((x2 - y2 + real) * (x2 - y2 + real))
       ((of_int 2 * x * y + imag) * (of_int 2 * x * y + imag))) ->
  P (of_int 0) (of_int 0) (of_int 0) (of_int 0) ->
  forall maxIter, (0 <= maxIter)%Z ->
    calculateMandelbrot real imag maxIter = maxIter.
Proof.
  intros Hinv H0 maxIter Hle. unfold calculateMandelbrot.
  rewrite (mandel_loop_invariant P real imag Hinv); [lia|done|lia].
Qed.

(** The first test is on the initial orbit value, so a positive budget
    always buys one iteration. *)
Lemma calculateMandelbrot_first real imag maxIter :
  (of_int 0 + of_int 0 <? dlit 4) = true ->
  (1 <= maxIter)%Z ->
  let x := of_int 0 - of_int 0 + real in
  let y := of_int 2 * of_int 0 * of_int 0 + imag in
  calculateMandelbrot real imag maxIter =
  mandel_loop (Z.to_nat (maxIter - 1)) real imag x y (x * x) (y * y) 1 maxIter.
Proof.
  intros Htest Hle x y. unfold calculateMandelbrot.
  replace (Z.to_nat maxIter) with (S (Z.to_nat (maxIter - 1))) by lia.
  cbn [mandel_loop]. rewrite Htest.
  destruct (Z.ltb_spec 0 maxIter); [|lia]. done.
Qed.

Lemma calculateMandelbrot_ge_1 real imag maxIter :
  (of_int 0 + of_int 0 <? dlit 4) = true ->
  (1 <= maxIter)%Z ->
  (1 <= calculateMandelbrot real imag maxIter)%Z.
Proof.
  intros Htest Hle.
  rewrite calculateMandelbrot_first by done.
  apply mandel_loop_ge.
Qed.

(** When the first orbit value already fails the test, the count is 1. *)
Lemma calculateMandelbrot_escape_1 real imag maxIter :
  (of_int 0 + of_int 0 <? dlit 4) = true ->
  (1 <= maxIter)%Z ->
  (let x := of_int 0 - of_int 0 + real in
   let y := of_int 2 * of_int 0 * of_int 0 + imag in
   (x * x + y * y <? dlit 4) = false) ->
  calculateMandelbrot real imag maxIter = 1%Z.
Proof.
  intros Htest Hle Hesc.
  rewrite calculateMandelbrot_first by done.
  destruct (Z.to_nat (maxIter - 1)) as [|fuel]; [done|].
  cbn [mandel_loop]. cbv zeta in Hesc. by rewrite Hesc.
Qed.

End EvaluatorOrbits.

(** *** In binary64 *)

Section Binary64.
Local Open Scope float_scope.

Lemma binary64_first_test :
  dltb (D := float) (dadd (of_int 0) (of_int 0)) (dlit 4) = true.
Proof. by vm_compute. Qed.

Lemma orbit_zero_invariant x y x2 y2 :
  orbit_zero x y x2 y2 ->
  dltb (dadd x2 y2) (dlit 4) = true /\
  orbit_zero (x2 - y2 + 0) (of_int 2 * x * y + 0)
    ((x2 - y2 + 0) * (x2 - y2 + 0))
    ((of_int 2 * x * y + 0) * (of_int 2 * x * y + 0)).
Proof.
  intros (-> & -> & -> & ->). split; [by vm_compute|].
  repeat split; by vm_compute.
Qed.

Lemma orbit_minus_one_invariant x y x2 y2 :
  orbit_minus_one x y x2 y2 ->
  dltb (dadd x2 y2) (dlit 4) = true /\
  orbit_minus_one (x2 - y2 + -1) (of_int 2 * x * y + 0)
    ((x2 - y2 + -1) * (x2 - y2 + -1))
    ((of_int 2 * x * y + 0) * (of_int 2 * x * y + 0)).
Proof.
  intros [(-> & -> & -> & ->)|(-> & -> & -> & ->)].
  - split; [by vm_compute|]. right. repeat split; by vm_compute.
  - split; [by vm_compute|]. left. repeat split; by vm_compute.
Qed.

(** Comparison of two specified floats, read from the other side. *)
Lemma SFcompare_antisym a b :
  SFcompare a b = option_map CompOpp (SFcompare b a).
Proof.
  destruct a as [s1|s1| |s1 m1 e1], b as [s2|s2| |s2 m2 e2];
    try destruct s1; try destruct s2; try reflexivity;
    cbn [SFcompare option_map]; f_equal;
    rewrite (Z.compare_antisym e1 e2);
    change Eq with (CompOpp Eq) at 1;
    rewrite <- (Pos.compare_cont_antisym m2 m1 Eq);
    destruct (e1 ?= e2)%Z; simpl; try reflexivity.
  all: destruct (Pos.compare_cont Eq m2 m1); reflexivity.
Qed.

Lemma float_leb_not_ltb (a b : float) :
  (a <=? b) = true -> (b <? a) = false.
Proof.
  rewrite leb_spec, ltb_spec. unfold SFleb, SFltb.
  rewrite (SFcompare_antisym (Prim2SF b)).
  destruct (SFcompare (Prim2SF a) (Prim2SF b)) as [[]|]; simpl; congruence.
Qed.

(** Adding to zero changes at most the sign of a zero, which the square
    forgets. *)
Lemma float_zero_add_sq (f : float) : (0 + f) * (0 + f) = f * f.
Proof.
  apply Prim2SF_inj. rewrite !mul_spec, !add_spec.
  change (Prim2SF 0) with (S754_zero false).
  destruct (Prim2SF f) as [s|s| |s m e]; try reflexivity.
  destruct s; reflexivity.
Qed.

Lemma binary64_escape_1 (real imag : float) (maxIter : Z) :
  (1 <= maxIter)%Z ->
  (4 <=? real * real + imag * imag) = true ->
  calculateMandelbrot real imag maxIter = 1%Z.
Proof.
  intros Hle Hout.
  apply calculateMandelbrot_escape_1; [by vm_compute|done|].
  cbv zeta.
  change (dsub (of_int 0) (of_int 0)) with 0.
  change (dmul (dmul (of_int 2) (of_int 0)) (of_int 0)) with 0.
  change (dlit 4) with 4.
  cbn [dadd dmul dltb binary64].
  rewrite !float_zero_add_sq.
  by apply float_leb_not_ltb.
Qed.

End Binary64.

(** *** In exact arithmetic *)

Section Exact.
Local Open Scope R_scope.

Lemma Rltb_true a b : Rltb a b = true <-> a < b.
Proof. unfold Rltb. destruct (Rlt_dec a b); split; (done || lra). Qed.

Lemma Rltb_false a b : Rltb a b = false <-> b <= a.
Proof. unfold Rltb. destruct (Rlt_dec a b); split; (done || lra). Qed.

Lemma Reqb_true a b : Reqb a b = true <-> a = b.
Proof. unfold Reqb. destruct (Req_dec_T a b); split; (done || lra). Qed.

Lemma exact_first_test :
  dltb (D := R) (dadd (of_int 0) (of_int 0)) (dlit 4) = true.
Proof. apply Rltb_true. cbn. unfold Q2R. simpl. lra. Qed.

Lemma exact_orbit_zero_invariant x y x2 y2 :
  exact_orbit_zero x y x2 y2 ->
  dltb (dadd x2 y2) (dlit 4) = true /\
  exact_orbit_zero (x2 - y2 + 0) (of_int 2 * x * y + 0)
    ((x2 - y2 + 0) * (x2 - y2 + 0))
    ((of_int 2 * x * y + 0) * (of_int 2 * x * y + 0)).
Proof.
  intros (-> & -> & -> & ->). split.
  - apply Rltb_true. cbn. unfold Q2R. simpl. lra.
  - cbn. repeat split; lra.
Qed.

Lemma exact_orbit_minus_one_invariant x y x2 y2 :
  exact_orbit_minus_one x y x2 y2 ->
  dltb (dadd x2 y2) (dlit 4) = true /\
  exact_orbit_minus_one (x2 - y2 + -1) (of_int 2 * x * y + 0)
    ((x2 - y2 + -1) * (x2 - y2 + -1))
    ((of_int 2 * x * y + 0) * (of_int 2 * x * y + 0)).
Proof.
  intros [(-> & -> & -> & ->)|(-> & -> & -> & ->)]; (split;
    [apply Rltb_true; cbn; unfold Q2R; simpl; lra|]).
  - right. cbn. repeat split; lra.
  - left. cbn. repeat split; lra.
Qed.

Lemma exact_escape_1 (real imag : R) (maxIter : Z) :
  (1 <= maxIter)%Z ->
  4 <= real * real + imag * imag ->
  calculateMandelbrot real imag maxIter = 1%Z.
Proof.
  intros Hle Hout.
  apply calculateMandelbrot_escape_1; [apply exact_first_test|done|].
  cbv zeta. apply Rltb_false. cbn. unfold Q2R. simpl.
  replace (0 - 0 + real) with real by ring.
  replace (2 * 0 * 0 + imag) with imag by ring.
  lra.
Qed.

(** *** The two evaluators *)

Lemma sqrt_4 : sqrt 4 = 2.
Proof. replace 4 with (2 * 2) by ring. apply sqrt_square. lra. Qed.

(** The escape test of man.cpp, on the modulus, and the one of 2man.cpp,
    on its square, agree. *)
Lemma escape_tests_agree (x y : R) :
  dltb (Man.cabs (Man.mkComplex x y)) (dlit 2) =
  dltb (dadd (x * x) (y * y)) (dlit 4).
Proof.
  cbn. unfold Q2R. simpl. rewrite !Rinv_1, !Rmult_1_r.
  assert (0 <= x * x + y * y) by nra.
  destruct (Rlt_dec (x * x + y * y) 4) as [Hlt|Hge].
  - rewrite (proj2 (Rltb_true _ 4)) by done.
    apply Rltb_true. rewrite <- sqrt_4. apply sqrt_lt_1_alt. lra.
  - rewrite (proj2 (Rltb_false _ 4)) by lra.
    apply Rltb_false. rewrite <- sqrt_4. apply sqrt_le_1_alt. lra.
Qed.

(** The loops run in lockstep: the optimised one carries the squares of
    the two parts of [z]. *)
Lemma mandel_loops_agree fuel (real imag x y : R) (it : Z) :
  Man.mandel_loop fuel (Man.mkComplex real imag) (Man.mkComplex x y) it =
  mandel_loop fuel real imag x y (x * x) (y * y) it Man.MAX_ITERATIONS.
Proof.
  revert x y it. induction fuel as [|fuel IH]; intros x y it; [done|].
  cbn [Man.mandel_loop mandel_loop]. rewrite escape_tests_agree.
  destruct (_ && _); [|done].
  unfold Man.cadd, Man.cmul. cbn [Man.re Man.im].
  cbn [dadd dsub dmul of_int exact].
  replace (x * y + y * x + imag) with (2 * x * y + imag) by ring.
  apply IH.
Qed.

Lemma Man_mandel_loop_ge fuel (c z : Man.complex (D := R)) it :
  (it <= Man.mandel_loop fuel c z it)%Z.
Proof.
  revert z it. induction fuel as [|fuel IH]; intros z it; simpl; [lia|].
  destruct (_ && _); [|lia].
  etransitivity; [|apply IH]. lia.
Qed.

End Exact.

(** ** The escape-time evaluator: results *)

(** C2. For every budget of at least 1, the evaluator of 2man.cpp returns
    the budget itself at the points (0, 0) and (-1, 0): their orbits stay
    bounded, so the loop runs up to the cap. This holds in the double
    precision the program computes with, where every operation on these two
    orbits is exact, and in exact arithmetic. *)
Theorem calculateMandelbrot_bounded_orbits (maxIter : Z) :
  1 <= maxIter ->
  calculateMandelbrot 0%float 0%float maxIter = maxIter /\
  calculateMandelbrot (-1)%float 0%float maxIter = maxIter /\
  calculateMandelbrot 0%R 0%R maxIter = maxIter /\
  calculateMandelbrot (-1)%R 0%R maxIter = maxIter.
Proof.
  intros Hle. repeat split.
  - apply (calculateMandelbrot_invariant orbit_zero);
      [apply orbit_zero_invariant|repeat split; by vm_compute|lia].
  - apply (calculateMandelbrot_invariant orbit_minus_one);
      [apply orbit_minus_one_invariant|left; repeat split; by vm_compute|lia].
  - apply (calculateMandelbrot_invariant exact_orbit_zero);
      [apply exact_orbit_zero_invariant|by repeat split|lia].
  - apply (calculateMandelbrot_invariant exact_orbit_minus_one);
      [apply exact_orbit_minus_one_invariant|left; by repeat split|lia].
Qed.

(** C2 at the initial budget of 2man.cpp. *)
Lemma calculateMandelbrot_bounded_orbits_witness :
  calculateMandelbrot 0%float 0%float 100 = 100 /\
  calculateMandelbrot (-1)%float 0%float 100 = 100 /\
  calculateMandelbrot 0%R 0%R 100 = 100 /\
  calculateMandelbrot (-1)%R 0%R 100 = 100.
Proof. apply (calculateMandelbrot_bounded_orbits 100). lia. Defined.

(** C3, as the specification states it, fails: at the point (2, 0), on the
    circle of radius 2, with budget 1, the evaluator returns 1 and not 0. *)
Lemma calculateMandelbrot_outside_not_0 :
  (4 <=? 2 * 2 + 0 * 0)%float = true /\
  0 < 1 /\
  calculateMandelbrot 2%float 0%float 1 = 1 /\
  calculateMandelbrot 2%float 0%float 1 <> 0.
Proof. by vm_compute. Qed.

(** C3, amended. For every point with [real^2 + imag^2 >= 4] and every
    positive budget the evaluator returns 1: the escape test is made before
    the first update, on the orbit value 0, so one iteration always runs, and
    it is the next test that sees the point itself. In double precision the
    hypothesis is read on the rounded square sum the program computes. *)
Theorem calculateMandelbrot_outside_is_1 (maxIter : Z) :
  1 <= maxIter ->
  (forall real imag : float,
     (4 <=? real * real + imag * imag)%float = true ->
     calculateMandelbrot real imag maxIter = 1) /\
  (forall real imag : R,
     (4 <= real * real + imag * imag)%R ->
     calculateMandelbrot real imag maxIter = 1).
Proof.
  intros Hle. split; intros real imag Hout.
  - by apply binary64_escape_1.
  - by apply exact_escape_1.
Qed.

(** C3, amended, at the points (2, 0) and (3, -4). *)
Lemma calculateMandelbrot_outside_is_1_witness :
  calculateMandelbrot 2%float 0%float 100 = 1 /\
  calculateMandelbrot 3%R (-4)%R 100 = 1.
Proof.
  destruct (calculateMandelbrot_outside_is_1 100 ltac:(lia)) as [Hf He].
  split.
  - apply Hf. by vm_compute.
  - apply He. lra.
Defined.

(** C9. For every point and every budget of at least 1 the evaluator
    returns at least 1, in double precision and in exact arithmetic, and so
    does the evaluator of man.cpp, whose budget is 1000: the first test is
    made on the initial orbit value, which passes it. *)
Theorem calculateMandelbrot_at_least_1 (maxIter : Z) :
  1 <= maxIter ->
  (forall real imag : float, 1 <= calculateMandelbrot real imag maxIter) /\
  (forall real imag : R, 1 <= calculateMandelbrot real imag maxIter) /\
  (forall real imag : R, 1 <= Man.calculateMandelbrot real imag).
Proof.
  intros Hle. repeat split; intros real imag.
  - apply calculateMandelbrot_ge_1; [by vm_compute|done].
  - apply calculateMandelbrot_ge_1; [apply exact_first_test|done].
  - unfold Man.calculateMandelbrot.
    replace (Z.to_nat Man.MAX_ITERATIONS) with (S (Z.to_nat 999))
      by (unfold Man.MAX_ITERATIONS; lia).
    cbn [Man.mandel_loop].
    rewrite escape_tests_agree.
    replace (dltb (dadd (of_int 0 * of_int 0) (of_int 0 * of_int 0))%R (dlit 4))
      with true.
    + cbn [andb Z.ltb Z.compare Man.MAX_ITERATIONS]. apply Man_mandel_loop_ge.
    + symmetry. apply Rltb_true. cbn. unfold Q2R. simpl. lra.
Qed.

(** C9 at the point (2, 2) with budget 7. *)
Lemma calculateMandelbrot_at_least_1_witness :
  1 <= calculateMandelbrot 2%float 2%float 7.
Proof.
  apply (proj1 (calculateMandelbrot_at_least_1 7 ltac:(lia))).
Defined.

(** C10. In exact arithmetic the evaluator of man.cpp, which iterates
    [z = z * z + c] on complex numbers while [|z| < 2], and the evaluator of
    2man.cpp called with the budget 1000 return the same count at every
    point. *)
Theorem calculateMandelbrot_versions_agree (real imag : R) :
  Man.calculateMandelbrot real imag = calculateMandelbrot real imag 1000.
Proof.
  change 1000 with Man.MAX_ITERATIONS.
  unfold Man.calculateMandelbrot, calculateMandelbrot.
  rewrite mandel_loops_agree. cbn [of_int exact].
  by replace (0 * 0)%R with 0%R by ring.
Qed.

(** ** The raster: strips against the single pass *)

Section Raster.
Context {D : Type} `{DoubleOps D}.

Lemma store_snoc (pixels : list Z) (ws : list write) (w : write) :
  store pixels (ws ++ [w]) = <[w.1 := w.2]> (store pixels ws).
Proof. unfold store. by rewrite foldl_app. Qed.

Lemma store_app (pixels : list Z) (ws1 ws2 : list write) :
  store pixels (ws1 ++ ws2) = store (store pixels ws1) ws2.
Proof. unfold store. by rewrite foldl_app. Qed.

Lemma length_store (pixels : list Z) (ws : list write) :
  length (store pixels ws) = length pixels.
Proof.
  induction ws as [|w ws IH] using rev_ind; [done|].
  by rewrite store_snoc, length_insert.
Qed.

(** When every store writes at its index the value [f] gives there, the
    order of the stores does not show in the cells they reach. *)
Lemma store_lookup (f : nat -> Z) (pixels : list Z) (ws : list write) (j : nat) :
  Forall (fun w : write => w.2 = f w.1) ws ->
  (j < length pixels)%nat ->
  j ∈ ws.*1 ->
  store pixels ws !! j = Some (f j).
Proof.
  induction ws as [|w ws IH] using rev_ind.
  - intros _ _ Hin. by apply elem_of_nil in Hin.
  - rewrite Forall_app, Forall_singleton, fmap_app, elem_of_app.
    intros [Hws Hw] Hj Hin. rewrite store_snoc.
    destruct (decide (w.1 = j)) as [<-|Hne].
    + rewrite list_lookup_insert_eq by (by rewrite length_store).
      by rewrite Hw.
    + rewrite list_lookup_insert_ne by done.
      apply IH; [done..|].
      destruct Hin as [Hin|Hin]; [done|].
      apply list_elem_of_singleton in Hin. congruence.
Qed.

(** Stores that reach every cell leave the table of [f]. *)
Lemma store_table (f : nat -> Z) (pixels : list Z) (ws : list write) :
  Forall (fun w : write => w.2 = f w.1) ws ->
  (forall j, (j < length pixels)%nat -> j ∈ ws.*1) ->
  store pixels ws = f <$> seq 0 (length pixels).
Proof.
  intros Hws Hcov. apply list_eq. intros j.
  destruct (decide (j < length pixels)%nat) as [Hj|Hj].
  - rewrite (store_lookup f) by auto.
    by rewrite list_lookup_fmap, lookup_seq_lt.
  - rewrite !(proj2 (lookup_ge_None _ _)); [done|..].
    + rewrite length_fmap, length_seq. lia.
    + rewrite length_store. lia.
Qed.

(** *** The stores of one worker *)

Lemma elem_of_section_writes (w : write) startY endY width height
    (xMin xMax yMin yMax : D) maxIterations :
  w ∈ renderMandelbrotSection_writes startY endY width height
        xMin xMax yMin yMax maxIterations <->
  exists y x, startY <= y < endY /\ 0 <= x < width /\
    w = (Z.to_nat (y * width + x),
         pixelColor width height xMin xMax yMin yMax maxIterations x y).
Proof.
  unfold renderMandelbrotSection_writes. rewrite list_elem_of_bind. split.
  - intros (y & Hw & Hy). apply list_elem_of_fmap in Hw as (x & -> & Hx).
    apply elem_of_seqZ in Hy, Hx. exists y, x. repeat split; lia.
  - intros (y & x & Hy & Hx & ->). exists y. split.
    + apply list_elem_of_fmap. exists x. split; [done|].
      apply elem_of_seqZ. lia.
    + apply elem_of_seqZ. lia.
Qed.

Lemma section_writes_agree startY endY width height
    (xMin xMax yMin yMax : D) maxIterations :
  0 <= startY ->
  Forall (fun w : write =>
            w.2 = pixel_at width height xMin xMax yMin yMax maxIterations w.1)
    (renderMandelbrotSection_writes startY endY width height
       xMin xMax yMin yMax maxIterations).
Proof.
  intros Hs. apply Forall_forall. intros w Hw.
  apply elem_of_section_writes in Hw as (y & x & Hy & Hx & ->).
  cbn [fst snd]. unfold pixel_at.
  rewrite Z2Nat.id by nia.
  f_equal.
  - apply (Z.mod_unique _ _ y); lia.
  - apply (Z.div_unique _ _ _ x); lia.
Qed.

Lemma section_writes_index (j : nat) startY endY width height
    (xMin xMax yMin yMax : D) maxIterations :
  0 < width ->
  startY <= Z.of_nat j / width < endY ->
  j ∈ (renderMandelbrotSection_writes startY endY width height
         xMin xMax yMin yMax maxIterations).*1.
Proof.
  intros Hw Hrow. apply list_elem_of_fmap.
  eexists (_, _). split; [|apply elem_of_section_writes].
  2: { exists (Z.of_nat j / width), (Z.of_nat j mod width).
       split; [done|]. split; [|done]. by apply Z.mod_pos_bound. }
  cbn [fst]. rewrite Z.mul_comm, <- Z.div_mod by lia. lia.
Qed.

(** *** The row ranges of the workers *)

Lemma section_rows_start NUM_THREADS i :
  1 <= NUM_THREADS -> 0 <= i -> 0 <= (section_rows NUM_THREADS i).1.
Proof.
  intros HN Hi. unfold section_rows. cbn [fst].
  assert (0 <= Z.quot SCREEN_HEIGHT NUM_THREADS)
    by (apply Z.quot_pos; unfold SCREEN_HEIGHT; lia).
  nia.
Qed.

(** Every row belongs to a worker: the last one takes the rows the
    division leaves over. *)
Lemma section_rows_cover NUM_THREADS y :
  1 <= NUM_THREADS -> 0 <= y < SCREEN_HEIGHT ->
  exists i, 0 <= i < NUM_THREADS /\
    (section_rows NUM_THREADS i).1 <= y < (section_rows NUM_THREADS i).2.
Proof.
  intros HN Hy. unfold section_rows. cbn [fst snd].
  rewrite Z.quot_div_nonneg by (unfold SCREEN_HEIGHT; lia).
  set (s := SCREEN_HEIGHT / NUM_THREADS).
  assert (0 <= s) by (apply Z.div_pos; unfold SCREEN_HEIGHT; lia).
  destruct (decide ((NUM_THREADS - 1) * s <= y)) as [Hlast|Hnot].
  - exists (NUM_THREADS - 1). rewrite Z.eqb_refl. lia.
  - assert (0 < s) by nia.
    exists (y / s).
    assert (y / s * s <= y < (y / s + 1) * s).
    { pose proof (Z.div_mod y s ltac:(lia)).
      pose proof (Z.mod_pos_bound y s ltac:(lia)). nia. }
    assert (y / s < NUM_THREADS - 1) by (apply Z.div_lt_upper_bound; nia).
    assert (0 <= y / s) by (apply Z.div_pos; lia).
    destruct (Z.eqb_spec (y / s) (NUM_THREADS - 1)); lia.
Qed.

(** No worker is given a row below the raster's last one. *)
Lemma section_rows_end NUM_THREADS i :
  1 <= NUM_THREADS -> 0 <= i < NUM_THREADS ->
  (section_rows NUM_THREADS i).2 <= SCREEN_HEIGHT.
Proof.
  intros HN Hi. unfold section_rows. cbn [snd].
  destruct (Z.eqb_spec i (NUM_THREADS - 1)); [lia|].
  rewrite Z.quot_div_nonneg by (unfold SCREEN_HEIGHT; lia).
  pose proof (Z.mul_div_le SCREEN_HEIGHT NUM_THREADS ltac:(lia)).
  assert (0 <= SCREEN_HEIGHT / NUM_THREADS)
    by (apply Z.div_pos; unfold SCREEN_HEIGHT; lia).
  nia.
Qed.

(** *** Schedules *)

Lemma interleaving_elem_of {A : Type} (ts : list (list A)) (sched : list A) :
  interleaving ts sched ->
  forall a, a ∈ sched <-> exists t, t ∈ ts /\ a ∈ t.
Proof.
  induction 1 as [ts Hnil|ts k a0 t sched Hk _ IH]; intros a.
  - split; [by intros ?%elem_of_nil|].
    intros (t & Ht & Ha). rewrite Forall_forall in Hnil.
    rewrite (Hnil t Ht) in Ha. by apply elem_of_nil in Ha.
  - pose proof (lookup_lt_Some _ _ _ Hk) as Hlen.
    rewrite elem_of_cons, IH. split.
    + intros [->|(t' & Ht' & Ha)].
      * exists (a0 :: t). split; [by eapply list_elem_of_lookup_2|left].
      * apply list_elem_of_lookup in Ht' as [i Hi].
        destruct (decide (k = i)) as [<-|Hne].
        -- rewrite list_lookup_insert_eq in Hi by done.
           injection Hi as <-. exists (a0 :: t).
           split; [by eapply list_elem_of_lookup_2|by right].
        -- rewrite list_lookup_insert_ne in Hi by done.
           exists t'. split; [by eapply list_elem_of_lookup_2|done].
    + intros (t' & Ht' & Ha).
      apply list_elem_of_lookup in Ht' as [i Hi].
      destruct (decide (k = i)) as [<-|Hne].
      * rewrite Hk in Hi. injection Hi as <-.
        apply elem_of_cons in Ha as [->|Ha]; [by left|right].
        exists t. split; [|done].
        eapply list_elem_of_lookup_2. by apply list_lookup_insert_eq.
      * right. exists t'. split; [|done].
        eapply list_elem_of_lookup_2. by rewrite list_lookup_insert_ne.
Qed.

Lemma interleaving_cons_nil {A : Type} (ts : list (list A)) (sched : list A) :
  interleaving ts sched -> interleaving ([] :: ts) sched.
Proof.
  induction 1 as [ts Hnil|ts k a0 t sched Hk _ IH].
  - apply interleaving_done. by constructor.
  - by apply (interleaving_step _ (S k) a0 t).
Qed.

(** The workers run one after the other, in the order they were started,
    is one of the schedules. *)
Lemma interleaving_concat {A : Type} (ts : list (list A)) :
  interleaving ts (concat ts).
Proof.
  induction ts as [|t ts IH]; [by apply interleaving_done|].
  induction t as [|a t IHt]; [by apply interleaving_cons_nil|].
  by apply (interleaving_step _ 0%nat a t).
Qed.

(** *** The workers of one pass *)

Lemma elem_of_thread_traces (t : list write) NUM_THREADS
    (xMin xMax yMin yMax : D) maxIterations :
  t ∈ thread_traces NUM_THREADS xMin xMax yMin yMax maxIterations <->
  exists i, 0 <= i < NUM_THREADS /\
    t = renderMandelbrotSection_writes
          (section_rows NUM_THREADS i).1 (section_rows NUM_THREADS i).2
          SCREEN_WIDTH SCREEN_HEIGHT xMin xMax yMin yMax maxIterations.
Proof.
  unfold thread_traces. rewrite list_elem_of_fmap.
  split; intros (i & Hi1 & Hi2); exists i.
  - apply elem_of_seqZ in Hi2. split; [lia|].
    by destruct (section_rows NUM_THREADS i).
  - split; [by destruct (section_rows NUM_THREADS i)|].
    apply elem_of_seqZ. lia.
Qed.

Lemma schedule_agree NUM_THREADS (xMin xMax yMin yMax : D) maxIterations
    (sched : list write) :
  1 <= NUM_THREADS ->
  interleaving (thread_traces NUM_THREADS xMin xMax yMin yMax maxIterations)
    sched ->
  Forall (fun w : write =>
            w.2 = pixel_at SCREEN_WIDTH SCREEN_HEIGHT xMin xMax yMin yMax
                    maxIterations w.1) sched.
Proof.
  intros HN Hsched. apply Forall_forall. intros w Hw.
  apply (interleaving_elem_of _ _ Hsched) in Hw as (t & Ht & Hw).
  apply elem_of_thread_traces in Ht as (i & Hi & ->).
  pose proof (section_writes_agree
    (section_rows NUM_THREADS i).1 (section_rows NUM_THREADS i).2
    SCREEN_WIDTH SCREEN_HEIGHT xMin xMax yMin yMax maxIterations
    (section_rows_start NUM_THREADS i HN (proj1 Hi))) as Hagree.
  rewrite Forall_forall in Hagree. by apply Hagree.
Qed.

Lemma schedule_covers NUM_THREADS (xMin xMax yMin yMax : D) maxIterations
    (sched : list write) (j : nat) :
  1 <= NUM_THREADS ->
  interleaving (thread_traces NUM_THREADS xMin xMax yMin yMax maxIterations)
    sched ->
  (j < Z.to_nat (SCREEN_WIDTH * SCREEN_HEIGHT))%nat ->
  j ∈ sched.*1.
Proof.
  intros HN Hsched Hj.
  assert (0 <= Z.of_nat j / SCREEN_WIDTH < SCREEN_HEIGHT) as Hrow.
  { split; [apply Z.div_pos; unfold SCREEN_WIDTH; lia|].
    apply Z.div_lt_upper_bound; unfold SCREEN_WIDTH, SCREEN_HEIGHT in *; lia. }
  destruct (section_rows_cover NUM_THREADS _ HN Hrow) as (i & Hi & Hin).
  pose proof (section_writes_index j
    (section_rows NUM_THREADS i).1 (section_rows NUM_THREADS i).2
    SCREEN_WIDTH SCREEN_HEIGHT xMin xMax yMin yMax maxIterations
    ltac:(unfold SCREEN_WIDTH; lia) Hin) as Hidx.
  apply list_elem_of_fmap in Hidx as (w & -> & Hw).
  apply list_elem_of_fmap_2.
  apply (interleaving_elem_of _ _ Hsched).
  eexists. split; [|exact Hw].
  apply elem_of_thread_traces. by exists i.
Qed.

(** The workers of a pass leave the raster of the view, whatever the
    schedule and the content of the buffer they were given. *)
Lemma schedule_raster NUM_THREADS (xMin xMax yMin yMax : D) maxIterations
    (pixels : list Z) (sched : list write) :
  1 <= NUM_THREADS ->
  length pixels = Z.to_nat (SCREEN_WIDTH * SCREEN_HEIGHT) ->
  interleaving (thread_traces NUM_THREADS xMin xMax yMin yMax maxIterations)
    sched ->
  store pixels sched = raster xMin xMax yMin yMax maxIterations.
Proof.
  intros HN Hlen Hsched. unfold raster. rewrite <- Hlen.
  apply store_table.
  - by apply (schedule_agree NUM_THREADS).
  - intros j Hj. rewrite Hlen in Hj.
    by apply (schedule_covers NUM_THREADS xMin xMax yMin yMax maxIterations).
Qed.

(** So does the single worker given all the rows. *)
Lemma single_strip_raster (xMin xMax yMin yMax : D) maxIterations
    (pixels : list Z) :
  length pixels = Z.to_nat (SCREEN_WIDTH * SCREEN_HEIGHT) ->
  renderMandelbrotSection pixels 0 SCREEN_HEIGHT SCREEN_WIDTH SCREEN_HEIGHT
    xMin xMax yMin yMax maxIterations =
  raster xMin xMax yMin yMax maxIterations.
Proof.
  intros Hlen. unfold renderMandelbrotSection, raster. rewrite <- Hlen.
  apply store_table.
  - apply section_writes_agree. lia.
  - intros j Hj. rewrite Hlen in Hj.
    apply section_writes_index; [unfold SCREEN_WIDTH; lia|].
    split; [apply Z.div_pos; unfold SCREEN_WIDTH; lia|].
    apply Z.div_lt_upper_bound; unfold SCREEN_WIDTH, SCREEN_HEIGHT in *; lia.
Qed.

(** No worker stores outside the buffer. *)
Lemma thread_traces_inside NUM_THREADS (xMin xMax yMin yMax : D) maxIterations
    (t : list write) (w : write) :
  1 <= NUM_THREADS ->
  t ∈ thread_traces NUM_THREADS xMin xMax yMin yMax maxIterations ->
  w ∈ t ->
  (w.1 < Z.to_nat (SCREEN_WIDTH * SCREEN_HEIGHT))%nat.
Proof.
  intros HN Ht Hw. apply elem_of_thread_traces in Ht as (i & Hi & ->).
  apply elem_of_section_writes in Hw as (y & x & Hy & Hx & ->).
  pose proof (section_rows_start NUM_THREADS i HN (proj1 Hi)).
  pose proof (section_rows_end NUM_THREADS i HN Hi).
  cbn [fst]. unfold SCREEN_WIDTH, SCREEN_HEIGHT in *. nia.
Qed.

(** C1. For every number of workers, all bounds of the viewport (the
    ordered ones among them) and every iteration budget: the 800 x 600
    raster the workers leave behind, each running [renderMandelbrotSection]
    on its strip of rows with the last strip taking the remainder, is, pixel
    for pixel, the raster [renderMandelbrotSection] fills as the single strip
    of rows [0, 600). This holds for every order in which the stores of the
    parallel workers reach the buffer and whatever the two fresh buffers
    held. *)
Theorem strips_render_the_single_strip (NUM_THREADS : Z)
    (xMin xMax yMin yMax : D) (maxIterations : Z)
    (pixels pixels' : list Z) (sched : list write) :
  1 <= NUM_THREADS ->
  length pixels = Z.to_nat (SCREEN_WIDTH * SCREEN_HEIGHT) ->
  length pixels' = Z.to_nat (SCREEN_WIDTH * SCREEN_HEIGHT) ->
  interleaving (thread_traces NUM_THREADS xMin xMax yMin yMax maxIterations)
    sched ->
  store pixels sched =
  renderMandelbrotSection pixels' 0 SCREEN_HEIGHT SCREEN_WIDTH SCREEN_HEIGHT
    xMin xMax yMin yMax maxIterations.
Proof.
  intros HN Hlen Hlen' Hsched.
  rewrite (schedule_raster NUM_THREADS xMin xMax yMin yMax maxIterations)
    by done.
  by rewrite single_strip_raster.
Qed.

(** *** The render pass *)

(** A pass that is not skipped shows the raster of the view at the budget
    of the pass, whatever the scheduler and the content of the fresh
    buffer. *)
Lemma renderMandelbrot_screen NUM_THREADS (pixels : list Z)
    (schedule : list (list write) -> list write) (highQuality : bool)
    (st : State) :
  1 <= NUM_THREADS ->
  length pixels = Z.to_nat (SCREEN_WIDTH * SCREEN_HEIGHT) ->
  scheduler schedule ->
  renderMandelbrot NUM_THREADS pixels schedule highQuality st = st \/
  screen (renderMandelbrot NUM_THREADS pixels schedule highQuality st) =
  raster (xMin st) (xMax st) (yMin st) (yMax st)
    (if highQuality then MAX_ITERATIONS st else Z.quot (MAX_ITERATIONS st) 4).
Proof.
  intros HN Hlen Hsched. unfold renderMandelbrot.
  destruct (_ && _); [by left|right]. cbn [screen].
  by apply (schedule_raster NUM_THREADS).
Qed.

(** C5. A call of [renderMandelbrot] for a precise pass, made while no
    redraw is pending and the four bounds compare equal ([==]) to the bounds
    of the last pass, changes nothing: the raster shown, the stored bounds
    and the three quality flags, with the rest of the state, are as they
    were. *)
Theorem renderMandelbrot_skip (NUM_THREADS : Z) (pixels : list Z)
    (schedule : list (list write) -> list write) (st : State) :
  needsUpdate st = false ->
  (prev_xMin st =? xMin st)%D = true ->
  (prev_xMax st =? xMax st)%D = true ->
  (prev_yMin st =? yMin st)%D = true ->
  (prev_yMax st =? yMax st)%D = true ->
  renderMandelbrot NUM_THREADS pixels schedule true st = st.
Proof.
  intros Hno Hx0 Hx1 Hy0 Hy1. unfold renderMandelbrot.
  by rewrite Hno, Hx0, Hx1, Hy0, Hy1.
Qed.

(** *** The wheel event *)

(** The wheel event leaves the view [zoomViewport] computes: neither the
    iteration controller nor the render pass touches the bounds. *)
Lemma onMouseWheel_view NUM_THREADS (pixels : list Z)
    (schedule : list (list write) -> list write)
    (wheel_y mouseX mouseY : Z) (st st' : State) :
  onMouseWheel NUM_THREADS pixels schedule wheel_y mouseX mouseY st = Some st' ->
  (xMin st', xMax st', yMin st', yMax st') =
  (xMin (zoomViewport wheel_y mouseX mouseY st),
   xMax (zoomViewport wheel_y mouseX mouseY st),
   yMin (zoomViewport wheel_y mouseX mouseY st),
   yMax (zoomViewport wheel_y mouseX mouseY st)).
Proof.
  unfold onMouseWheel, updateIterations.
  destruct (cast_signed 32 _) as [m|]; [|done].
  cbn [mbind option_bind]. intros [= <-].
  unfold renderMandelbrot. cbn [andb]. done.
Qed.

(** *** Conversions *)

Lemma cast_signed_range (w : Z) (d : D) (z : Z) :
  cast_signed w d = Some z -> - 2 ^ (w - 1) <= z < 2 ^ (w - 1).
Proof.
  unfold cast_signed. destruct (dtrunc d) as [z'|]; [|done].
  destruct (Z.leb_spec (- 2 ^ (w - 1)) z'); [|done].
  destruct (Z.ltb_spec z' (2 ^ (w - 1))); [|done].
  intros [= <-]. lia.
Qed.

End Raster.

(** C1 for four workers that run one after the other on a zeroed buffer,
    at the initial view and budget. *)
Lemma strips_render_the_single_strip_witness :
  store (replicate (Z.to_nat (SCREEN_WIDTH * SCREEN_HEIGHT)) 0)
    (concat (thread_traces 4 (-2.5)%float 1%float (-1.5)%float 1.5%float 100)) =
  renderMandelbrotSection (replicate (Z.to_nat (SCREEN_WIDTH * SCREEN_HEIGHT)) 0)
    0 SCREEN_HEIGHT SCREEN_WIDTH SCREEN_HEIGHT
    (-2.5)%float 1%float (-1.5)%float 1.5%float 100.
Proof.
  apply (strips_render_the_single_strip 4).
  - lia.
  - apply length_replicate.
  - apply length_replicate.
  - apply interleaving_concat.
Defined.

(** C5 at the state a precise pass of the initial view leaves. *)
Lemma renderMandelbrot_skip_witness :
  renderMandelbrot 4 [] (@concat write) true idle_state = idle_state.
Proof. apply renderMandelbrot_skip; by vm_compute. Defined.

(** ** The viewport under zoom *)

Section ZoomExact.
Local Open Scope R_scope.

Lemma exact_zoom_bounds (c lo hi zoomFactor : R) :
  lo < hi -> 0 < zoomFactor ->
  c - (hi - lo) * zoomFactor / 2 < c + (hi - lo) * zoomFactor / 2.
Proof.
  intros Hlt Hz.
  assert (0 < (hi - lo) * zoomFactor) by (apply Rmult_lt_0_compat; lra).
  lra.
Qed.


End ZoomExact.



(** ** The iteration controller *)

Section ControllerExact.
Local Open Scope R_scope.

Lemma Int_part_bounds (r : R) : IZR (Int_part r) <= r < IZR (Int_part r) + 1.
Proof. destruct (base_Int_part r). lra. Qed.

Lemma Int_part_IZR (z : Z) : Int_part (IZR z) = z.
Proof. symmetry. apply Int_part_spec. lra. Qed.

Lemma Int_part_between (r : R) (lo hi : Z) :
  IZR lo <= r -> r < IZR hi -> (lo <= Int_part r < hi)%Z.
Proof.
  intros Hlo Hhi. destruct (Int_part_bounds r) as [H1 H2]. split.
  - apply Z.lt_succ_r, lt_IZR. rewrite succ_IZR. lra.
  - apply lt_IZR. lra.
Qed.

Lemma Rtrunc_nonneg (x : R) : 0 <= x -> Rtrunc x = Int_part x.
Proof. intros Hx. unfold Rtrunc. by destruct (Rle_dec 0 x). Qed.

(** The conversion to [int] of line 224 and the two tests after it. *)
Lemma exact_updateIterations (st : State (D := R)) :
  let v := 100 * sqrt (3.5 / (xMax st - xMin st)) in
  v < 2147483648 ->
  exists st',
    updateIterations st = Some st' /\
    MAX_ITERATIONS st' = Int_part (clamp v 100 2000) /\
    (xMin st', xMax st', yMin st', yMax st') =
    (xMin st, xMax st, yMin st, yMax st).
Proof.
  intros v Hv.
  assert (0 <= v) as Hv0.
  { unfold v. pose proof (sqrt_pos (3.5 / (xMax st - xMin st))). lra. }
  pose proof (Int_part_bounds v) as [Hz1 Hz2].
  destruct (Int_part_between v 0 2147483648 Hv0 Hv) as [Hz3 Hz4].
  unfold updateIterations, cast_signed.
  cbn [dtrunc dmul ddiv dsub dsqrt of_int dlit exact].
  replace (Q2R (35 # 10)) with 3.5 by (unfold Q2R; cbn [Qnum Qden]; lra).
  fold v. rewrite Rtrunc_nonneg by done.
  replace (- 2 ^ (32 - 1) <=? Int_part v)%Z with true
    by (symmetry; apply Z.leb_le; lia).
  replace (Int_part v <? 2 ^ (32 - 1))%Z with true
    by (symmetry; apply Z.ltb_lt; lia).
  cbn [andb mbind option_bind]. eexists. split; [done|].
  cbn [MAX_ITERATIONS xMin xMax yMin yMax]. split; [|done].
  unfold clamp.
  destruct (Z.ltb_spec (Int_part v) 100) as [Hlow|Hlow].
  - assert (v < 100).
    { assert (Int_part v <= 99)%Z as Hle by lia. apply IZR_le in Hle. lra. }
    rewrite Rmin_left, Rmax_left by (try apply Rmin_case; lra).
    cbn. by rewrite Int_part_IZR.
  - assert (100 <= v) by (apply IZR_le in Hlow; lra).
    destruct (Z.gtb_spec (Int_part v) 2000) as [Hhigh|Hhigh].
    + assert (2000 <= v) by (apply IZR_lt in Hhigh; lra).
      rewrite Rmin_right, Rmax_right by lra. by rewrite Int_part_IZR.
    + destruct (Rle_dec 2000 v) as [Hge|Hlt].
      * rewrite Rmin_right, Rmax_right by lra. rewrite Int_part_IZR.
        assert (2000 <= Int_part v)%Z; [|lia].
        apply (Int_part_between v 2000 2147483648); lra.
      * rewrite Rmin_left, Rmax_right by lra. done.
Qed.

Lemma sqrt_between (x a b : R) :
  0 <= a -> 0 <= b -> a * a < x -> x < b * b -> a < sqrt x < b.
Proof.
  intros Ha Hb Hax Hxb. split.
  - rewrite <- (sqrt_square a) at 1 by done. apply sqrt_lt_1_alt. nra.
  - rewrite <- (sqrt_square b) at 1 by done. apply sqrt_lt_1_alt. nra.
Qed.

Lemma exact_view_level (w : R) :
  xMax (exact_view w) - xMin (exact_view w) = w.
Proof. cbn. lra. Qed.

(** At half the reference width the real number of the contract lies
    strictly between 141 and 142. *)
Lemma budget_at_half_width :
  141 < 100 * sqrt (3.5 / 1.75) < 142.
Proof.
  replace (3.5 / 1.75) with 2 by lra.
  destruct (sqrt_between 2 1.41 1.42) as [H1 H2]; lra.
Qed.

(** Below the width [3.5 / (2^31 / 100)^2] the product converted at line
    224 is beyond the largest [int]; so it is at the width [2^-54]. *)
Lemma budget_at_deep_zoom :
  20000000000 < 100 * sqrt (3.5 / (1 / 18014398509481984)) < 30000000000.
Proof.
  replace (3.5 / (1 / 18014398509481984)) with 63050394783186944 by lra.
  destruct (sqrt_between 63050394783186944 200000000 300000000) as [H1 H2];
    lra.
Qed.

End ControllerExact.




(** ** The synthesizer *)

Section SynthesizerSamples.
Context {D : Type} `{DoubleOps D} `{LibmOps D}.

(** In any arithmetic, a buffer that is returned holds 16-bit samples: each
    one went through the conversion to [Sint16]. *)
Lemma createMandelbrotSound_samples (MAX iterations : Z) (real imag : D)
    (buffer : list Z) :
  createMandelbrotSound MAX iterations real imag = Some buffer ->
  Forall (fun s => -32768 <= s <= 32767) buffer.
Proof.
  unfold createMandelbrotSound.
  destruct (cast_signed 32 _) as [n|]; [|done].
  cbn [mbind option_bind]. intros Hm. apply mapM_Some in Hm.
  induction Hm as [|i s l k Hs _ IH]; constructor; [|done].
  apply cast_signed_range in Hs. change (2 ^ (16 - 1)) with 32768 in Hs. lia.
Qed.

End SynthesizerSamples.

Section SynthesizerExact.
Local Open Scope R_scope.

Lemma exact_mapValue (value inMin inMax outMin outMax : R) :
  mapValue value inMin inMax outMin outMax =
  linear_map value inMin inMax outMin outMax.
Proof.
  unfold mapValue, linear_map. cbn [dadd dsub dmul ddiv exact].
  unfold Rdiv. ring.
Qed.

Lemma exact_primaryFreq_inside (MAX iterations : Z) :
  (MAX <= iterations)%Z -> primaryFreq MAX iterations = 110.
Proof.
  intros Hge. unfold primaryFreq.
  rewrite (proj2 (Z.geb_le _ _) Hge). cbn. literals. lra.
Qed.

Lemma exact_primaryFreq_outside (MAX iterations : Z) :
  (iterations < MAX)%Z ->
  primaryFreq MAX iterations =
  linear_map (IZR iterations) 0 (IZR MAX) 220 880.
Proof.
  intros Hlt. unfold primaryFreq.
  destruct (iterations >=? MAX)%Z eqn:Hge; [apply Z.geb_le in Hge; lia|].
  rewrite exact_mapValue. cbn [dlit of_int exact]. literals.
  unfold linear_map. lra.
Qed.

(** On counts that are not negative the linear map stays at or above 220. *)
Lemma linear_map_above (MAX iterations : Z) :
  (0 < MAX)%Z -> (0 <= iterations)%Z ->
  220 <= linear_map (IZR iterations) 0 (IZR MAX) 220 880.
Proof.
  intros HM Hit. unfold linear_map.
  assert (0 <= (IZR iterations - 0) / (IZR MAX - 0)).
  { rewrite !Rminus_0_r. unfold Rdiv. apply Rmult_le_pos.
    - by apply IZR_le.
    - left. apply Rinv_0_lt_compat. by apply IZR_lt. }
  nra.
Qed.

(** *** The samples *)

Lemma exact_envelope_bounds (time : R) :
  0 <= time < 1 -> 0 <= envelope (dlit 1) time <= 1.
Proof.
  intros Ht. unfold envelope.
  cbn [dadd dsub dmul ddiv dltb dlit exact]. literals.
  repeat match goal with
         | |- context [Rltb ?a ?b] =>
             let Hc := fresh "Hc" in
             destruct (Rltb a b) eqn:Hc;
             [apply Rltb_true in Hc|apply Rltb_false in Hc]
         end; lra.
Qed.

Lemma Rtrunc_between (x : R) (n : Z) :
  - IZR n <= x <= IZR n -> (- n <= Rtrunc x <= n)%Z.
Proof.
  intros [Hlo Hhi]. unfold Rtrunc. destruct (Rle_dec 0 x) as [Hx|Hx].
  - destruct (Int_part_between x 0 (n + 1)); [lra|rewrite plus_IZR; lra|lia].
  - destruct (Int_part_between (- x) 0 (n + 1));
      [lra|rewrite plus_IZR; lra|lia].
Qed.

Lemma exact_soundSample (p s1 s2 h : R) (i : Z) :
  (0 <= i < SAMPLE_RATE)%Z ->
  exists s, soundSample p s1 s2 h (dlit 1) i = Some s /\
    (-32768 <= s <= 32767)%Z.
Proof.
  intros Hi. unfold soundSample, cast_signed.
  cbn [dtrunc dadd dsub dmul ddiv dsin M_PI of_int exact exact_libm].
  set (time := IZR i / IZR SAMPLE_RATE).
  assert (0 <= time < 1) as Ht.
  { unfold time, SAMPLE_RATE in *. destruct Hi as [Hi0 Hi1].
    apply IZR_le in Hi0. apply IZR_lt in Hi1. split.
    - apply Rmult_le_pos; lra.
    - apply (Rmult_lt_reg_r 44100); [lra|]. unfold Rdiv.
      rewrite Rmult_assoc, Rinv_l; lra. }
  pose proof (exact_envelope_bounds time Ht) as He.
  set (env := envelope (dlit 1) time) in *.
  match goal with
  | |- context [Rtrunc ?v] => set (sample := v)
  end.
  assert (- IZR 32767 <= sample <= IZR 32767) as Hs.
  { unfold sample.
    pose proof (SIN_bound (dlit 2 * PI * p * time)).
    pose proof (SIN_bound (dlit 2 * PI * s1 * time)).
    pose proof (SIN_bound (dlit 2 * PI * s2 * time)).
    pose proof (SIN_bound (dlit 2 * PI * h * time)).
    cbn [dlit exact] in *. literals.
    match goal with
    | |- _ <= ?mix * env * _ <= _ =>
        assert (-1 <= mix <= 1) as Hmix by lra;
        set (m := mix) in *; clearbody m
    end.
    nra. }
  apply Rtrunc_between in Hs.
  exists (Rtrunc sample). split; [|lia].
  replace (- 2 ^ (16 - 1) <=? Rtrunc sample)%Z with true
    by (symmetry; apply Z.leb_le; cbn; lia).
  replace (Rtrunc sample <? 2 ^ (16 - 1))%Z with true
    by (symmetry; apply Z.ltb_lt; cbn; lia).
  done.
Qed.

Lemma mapM_all {A B : Type} (f : A -> option B) (P : B -> Prop) (l : list A) :
  (forall x, x ∈ l -> exists y, f x = Some y /\ P y) ->
  exists k, mapM f l = Some k /\ length k = length l /\ Forall P k.
Proof.
  induction l as [|x l IH]; intros Hall.
  - exists []. by repeat split.
  - destruct (Hall x) as (y & Hy & HPy); [by left|].
    destruct IH as (k & Hk & Hlen & HP).
    { intros x' Hx'. apply Hall. by right. }
    exists (y :: k). cbn. rewrite Hy. cbn. rewrite Hk. cbn.
    repeat split; [by rewrite Hlen|by constructor].
Qed.

End SynthesizerExact.





(** * Further properties of the code *)

(** ** The evaluator *)

Section EvaluatorBudget.
Context {D : Type} `{DoubleOps D}.
Local Open Scope double_scope.

(** The loop with a smaller budget stops where the loop with a larger one
    passes the smaller budget. *)
Lemma mandel_loop_budget fuel fuel' real imag x y x2 y2 it m m' :
  (it <= m <= m')%Z ->
  (m - it <= Z.of_nat fuel)%Z ->
  (m' - it <= Z.of_nat fuel')%Z ->
  mandel_loop fuel real imag x y x2 y2 it m =
  Z.min m (mandel_loop fuel' real imag x y x2 y2 it m').
Proof.
  revert fuel' x y x2 y2 it.
  induction fuel as [|fuel IH]; intros fuel' x y x2 y2 it Hit Hf Hf'.
  - pose proof (mandel_loop_ge fuel' real imag x y x2 y2 it m').
    cbn [mandel_loop]. lia.
  - destruct (Z.eq_dec it m) as [->|Hne].
    + pose proof (mandel_loop_ge fuel' real imag x y x2 y2 m m').
      cbn [mandel_loop]. rewrite Z.ltb_irrefl, andb_false_r. lia.
    + destruct fuel' as [|fuel']; [lia|].
      cbn [mandel_loop].
      destruct (Z.ltb_spec it m); [|lia].
      destruct (Z.ltb_spec it m'); [|lia].
      destruct (x2 + y2 <? dlit 4); cbn [andb]; [|lia].
      apply IH; lia.
Qed.

Lemma calculateMandelbrot_min (real imag : D) (m m' : Z) :
  (0 <= m <= m')%Z ->
  calculateMandelbrot real imag m =
  Z.min m (calculateMandelbrot real imag m').
Proof. intros Hm. apply mandel_loop_budget; lia. Qed.

(** X1. In any arithmetic the count the evaluator returns lies between 0
    and a budget that is not negative, and is 0 for a budget that is not
    positive: the contract 'a count in [0, maxIterations]'. *)
Theorem calculateMandelbrot_count_bounds (real imag : D) (maxIter : Z) :
  ((0 <= maxIter)%Z ->
   (0 <= calculateMandelbrot real imag maxIter <= maxIter)%Z) /\
  ((maxIter <= 0)%Z -> calculateMandelbrot real imag maxIter = 0%Z).
Proof.
  split; intros Hm; unfold calculateMandelbrot.
  - split; [apply mandel_loop_ge|by apply mandel_loop_le].
  - by replace (Z.to_nat maxIter) with 0%nat by lia.
Qed.

(** X2. In any arithmetic, lowering the budget only caps the count: with
    [0 <= m <= m'] the count for the budget [m] is the smaller of [m] and the
    count for [m']. So a point is classified inside at the budget [m]
    exactly when its count at the budget [m'] reaches [m]. *)
Theorem calculateMandelbrot_budget_cap (real imag : D) (m m' : Z) :
  (0 <= m <= m')%Z ->
  calculateMandelbrot real imag m =
  Z.min m (calculateMandelbrot real imag m') /\
  (calculateMandelbrot real imag m = m <->
   (m <= calculateMandelbrot real imag m')%Z).
Proof.
  intros Hm.
  pose proof (calculateMandelbrot_min real imag m m' Hm) as Hcap.
  split; [done|]. rewrite Hcap. lia.
Qed.

End EvaluatorBudget.

(** X1 at the origin, with the budgets 100 and 0, in double precision. *)
Lemma calculateMandelbrot_count_bounds_witness :
  (0 <= calculateMandelbrot 0%float 0%float 100 <= 100) /\
  calculateMandelbrot 0%float 0%float 0 = 0.
Proof.
  split.
  - apply (proj1 (calculateMandelbrot_count_bounds 0%float 0%float 100)).
    lia.
  - apply (proj2 (calculateMandelbrot_count_bounds 0%float 0%float 0)). lia.
Defined.

(** X2 for the budget of a fast pass, 25, against the full budget 100. *)
Lemma calculateMandelbrot_budget_cap_witness :
  calculateMandelbrot 0.25%float 0.5%float 25 =
  Z.min 25 (calculateMandelbrot 0.25%float 0.5%float 100).
Proof.
  apply (proj1 (calculateMandelbrot_budget_cap 0.25%float 0.5%float 25 100
                  ltac:(lia))).
Defined.

Section EvaluatorSymmetry.
Local Open Scope R_scope.

Lemma mandel_loop_conjugate fuel (real imag x y x2 y2 : R) (it maxIter : Z) :
  mandel_loop fuel real (- imag) x (- y) x2 y2 it maxIter =
  mandel_loop fuel real imag x y x2 y2 it maxIter.
Proof.
  revert x y x2 y2 it.
  induction fuel as [|fuel IH]; intros x y x2 y2 it; [done|].
  cbn [mandel_loop]. destruct (_ && _); [|done].
  cbn [dadd dsub dmul of_int exact].
  replace (2 * x * - y + - imag) with (- (2 * x * y + imag)) by ring.
  rewrite IH.
  by replace (- (2 * x * y + imag) * - (2 * x * y + imag))
    with ((2 * x * y + imag) * (2 * x * y + imag)) by ring.
Qed.

(** X3. In exact arithmetic the count is the same at a point and at its
    complex conjugate: the picture of the set is symmetric about the real
    axis. *)
Theorem calculateMandelbrot_conjugate (real imag : R) (maxIter : Z) :
  calculateMandelbrot real (- imag) maxIter =
  calculateMandelbrot real imag maxIter.
Proof.
  unfold calculateMandelbrot. cbn [of_int exact].
  rewrite <- (mandel_loop_conjugate _ real imag 0 0).
  by replace (- 0) with 0 by ring.
Qed.

End EvaluatorSymmetry.

(** ** The coordinate mapper *)



(** ** Pixels *)

Section Packing.

Lemma lor_shiftl_add (a b n : Z) :
  0 <= n -> 0 <= a < 2 ^ n -> Z.lor a (Z.shiftl b n) = a + b * 2 ^ n.
Proof.
  intros Hn Ha. rewrite <- Z.shiftl_mul_pow2 by done.
  rewrite <- Z.add_lor_land.
  replace (Z.land a (Z.shiftl b n)) with 0; [lia|].
  symmetry. apply Z.bits_inj'. intros k Hk.
  rewrite Z.land_spec, Z.bits_0.
  destruct (Z.lt_ge_cases k n) as [Hlt|Hge].
  - by rewrite Z.shiftl_spec_low, andb_false_r.
  - replace (Z.testbit a k) with false; [done|].
    symmetry. apply Z.testbit_false; [done|].
    rewrite Z.div_small; [done|].
    split; [lia|]. apply Z.lt_le_trans with (2 ^ n); [lia|].
    apply Z.pow_le_mono_r; lia.
Qed.

Lemma createRGBA_sum (r g b a : Z) :
  byte r -> byte g -> byte b -> byte a ->
  Man.createRGBA r g b a = r + g * 256 + b * 65536 + a * 16777216.
Proof.
  unfold byte, Man.createRGBA. intros Hr Hg Hb Ha.
  rewrite Z.shiftl_0_r.
  rewrite (lor_shiftl_add r g 8) by lia.
  rewrite (lor_shiftl_add _ b 16) by lia.
  rewrite (lor_shiftl_add _ a 24) by lia.
  apply Z.mod_small. lia.
Qed.

Lemma packRGBA_sum (r g b : Z) :
  byte r -> byte g -> byte b ->
  packRGBA (r, g, b) = r + g * 256 + b * 65536 + 255 * 16777216.
Proof.
  unfold byte, packRGBA. intros Hr Hg Hb.
  rewrite (Z.shiftl_mul_pow2 255 24) by lia.
  replace (255 * 2 ^ 24) with (Z.shiftl (255 * 2 ^ 8) 16)
    by (rewrite Z.shiftl_mul_pow2; lia).
  rewrite Z.lor_comm, (Z.shiftl_mul_pow2 b), Z.lor_comm by lia.
  rewrite <- (Z.shiftl_mul_pow2 b) by lia.
  rewrite <- Z.shiftl_lor.
  rewrite (Z.lor_comm b), <- (Z.shiftl_mul_pow2 255 8) by lia.
  rewrite (Z.lor_comm _ b), (lor_shiftl_add b 255 8) by lia.
  replace (Z.shiftl (b + 255 * 2 ^ 8) 16)
    with (Z.shiftl ((b + 255 * 2 ^ 8) * 2 ^ 8) 8)
    by (rewrite !Z.shiftl_mul_pow2; lia).
  rewrite <- Z.shiftl_lor.
  rewrite <- (Z.shiftl_mul_pow2 (b + _) 8) by lia.
  rewrite (lor_shiftl_add g _ 8) by lia.
  rewrite (lor_shiftl_add r _ 8) by lia.
  rewrite Z.mod_small by lia. lia.
Qed.

End Packing.

(** X5. [createRGBA] of man.cpp packs four bytes without loss: each byte is
    read back from the word by its shift and the mask 255, and the word is
    below [2^32]. With the opaque alpha 255 it is the word the renderer of
    2man.cpp packs inline. *)
Theorem createRGBA_channels (r g b a : Z) :
  byte r -> byte g -> byte b -> byte a ->
  Z.land (Man.createRGBA r g b a) 255 = r /\
  Z.land (Z.shiftr (Man.createRGBA r g b a) 8) 255 = g /\
  Z.land (Z.shiftr (Man.createRGBA r g b a) 16) 255 = b /\
  Z.shiftr (Man.createRGBA r g b a) 24 = a /\
  0 <= Man.createRGBA r g b a < 2 ^ 32 /\
  Man.createRGBA r g b 255 = packRGBA (r, g, b).
Proof.
  intros Hr Hg Hb Ha.
  rewrite (createRGBA_sum r g b 255), packRGBA_sum by (done || by compute).
  rewrite createRGBA_sum by done. unfold byte in *.
  change 255 with (Z.ones 8). rewrite !Z.land_ones, !Z.shiftr_div_pow2 by lia.
  repeat split; try lia.
  - symmetry. apply (Z.mod_unique _ _ (g + b * 256 + a * 65536)); lia.
  - replace ((r + g * 256 + b * 65536 + a * 16777216) / 2 ^ 8)
      with (g + b * 256 + a * 65536)
      by (apply (Z.div_unique _ _ _ r); lia).
    symmetry. apply (Z.mod_unique _ _ (b + a * 256)); lia.
  - replace ((r + g * 256 + b * 65536 + a * 16777216) / 2 ^ 16)
      with (b + a * 256)
      by (apply (Z.div_unique _ _ _ (r + g * 256)); lia).
    symmetry. apply (Z.mod_unique _ _ a); lia.
  - symmetry. apply (Z.div_unique _ _ _ (r + g * 256 + b * 65536)); lia.
Qed.

(** X5 on an orange pixel. *)
Lemma createRGBA_channels_witness :
  Z.land (Z.shiftr (Man.createRGBA 255 128 0 255) 8) 255 = 128.
Proof.
  apply (createRGBA_channels 255 128 0 255); by compute.
Defined.

Section Colours.
Context {D : Type} `{DoubleOps D}.

Lemma to_Uint8_byte (d : D) : byte (to_Uint8 d).
Proof.
  unfold to_Uint8, cast_unsigned, byte.
  destruct (dtrunc d) as [z|]; [|lia].
  destruct (Z.leb_spec 0 z); [|cbn; lia].
  destruct (Z.ltb_spec z (2 ^ 8)); cbn; lia.
Qed.

Lemma iterationColor_bytes (iterations maxIterations : Z) :
  byte (iterationColor iterations maxIterations).1.1 /\
  byte (iterationColor iterations maxIterations).1.2 /\
  byte (iterationColor iterations maxIterations).2.
Proof.
  unfold iterationColor.
  destruct (iterations =? maxIterations); [by cbn|].
  cbv zeta.
  repeat match goal with
         | |- context [match ?p with _ => _ end] => destruct p
         end;
    cbn [fst snd]; repeat split; (apply to_Uint8_byte || by compute).
Qed.

Lemma pixelColor_sum (width height : Z) (xMin xMax yMin yMax : D)
    (maxIterations x y : Z) :
  exists r g b, byte r /\ byte g /\ byte b /\
    (r, g, b) =
    iterationColor
      (calculateMandelbrot
         (mapValue (of_int x) (of_int 0) (of_int width) xMin xMax)
         (mapValue (of_int y) (of_int 0) (of_int height) yMin yMax)
         maxIterations)
      maxIterations /\
    pixelColor width height xMin xMax yMin yMax maxIterations x y =
    r + g * 256 + b * 65536 + 255 * 16777216.
Proof.
  unfold pixelColor. cbv zeta.
  match goal with
  | |- context [packRGBA ?c] =>
      pose proof (iterationColor_bytes
        (calculateMandelbrot
           (mapValue (of_int x) (of_int 0) (of_int width) xMin xMax)
           (mapValue (of_int y) (of_int 0) (of_int height) yMin yMax)
           maxIterations) maxIterations) as (Hr & Hg & Hb);
      destruct c as [[r g] b]
  end.
  exists r, g, b. cbn [fst snd] in *.
  split; [done|]. split; [done|]. split; [done|]. split; [done|].
  by apply packRGBA_sum.
Qed.

(** X6. In any arithmetic every pixel the tile renderer stores is an opaque
    32-bit word: its top byte, the alpha, is 255, and the word is below
    [2^32]. *)
Theorem pixelColor_opaque (width height : Z) (xMin xMax yMin yMax : D)
    (maxIterations x y : Z) :
  Z.shiftr (pixelColor width height xMin xMax yMin yMax maxIterations x y) 24
    = 255 /\
  0 <= pixelColor width height xMin xMax yMin yMax maxIterations x y < 2 ^ 32.
Proof.
  destruct (pixelColor_sum width height xMin xMax yMin yMax maxIterations x y)
    as (r & g & b & Hr & Hg & Hb & _ & ->).
  unfold byte in *. rewrite Z.shiftr_div_pow2 by lia. split; [|lia].
  symmetry. apply (Z.div_unique _ _ _ (r + g * 256 + b * 65536)); lia.
Qed.

(** The colour of a count below two budgets is the same for both. *)
Lemma iterationColor_below (iterations m m' : Z) :
  iterations < m -> iterations < m' ->
  iterationColor iterations m = iterationColor iterations m'.
Proof.
  intros Hm Hm'. unfold iterationColor.
  destruct (Z.eqb_spec iterations m); [lia|].
  destruct (Z.eqb_spec iterations m'); [lia|].
  destruct (Z.ltb_spec iterations m); [|lia].
  destruct (Z.ltb_spec iterations m'); [|lia]. done.
Qed.

(** X7. In any arithmetic, a pixel whose count at the budget [m'] is below
    a smaller budget [m] gets the same colour in a pass with the budget [m]:
    the fast pass, which runs with a quarter of the budget, already shows the
    final colour of every pixel that escapes within that quarter. *)
Theorem pixelColor_fast_pass (width height : Z) (xMin xMax yMin yMax : D)
    (m m' x y : Z) :
  0 <= m <= m' ->
  calculateMandelbrot
    (mapValue (of_int x) (of_int 0) (of_int width) xMin xMax)
    (mapValue (of_int y) (of_int 0) (of_int height) yMin yMax) m' < m ->
  pixelColor width height xMin xMax yMin yMax m x y =
  pixelColor width height xMin xMax yMin yMax m' x y.
Proof.
  intros Hm Hcount. unfold pixelColor. cbv zeta.
  rewrite (calculateMandelbrot_min _ _ m m') by done.
  rewrite Z.min_r by lia.
  f_equal. apply iterationColor_below; lia.
Qed.

End Colours.

(** X7 on the top left pixel of the initial view, which escapes at once. *)
Lemma pixelColor_fast_pass_witness :
  pixelColor 800 600 (-2.5)%float 1%float (-1.5)%float 1.5%float 25 0 0 =
  pixelColor 800 600 (-2.5)%float 1%float (-1.5)%float 1.5%float 100 0 0.
Proof. apply pixelColor_fast_pass; [lia|by vm_compute]. Defined.

Section Palette.
Context {D : Type} `{DoubleOps D}.

(** Outside the set the colour depends on the count modulo 64 only. *)
Lemma iterationColor_residue (iterations maxIterations : Z) :
  0 <= iterations < maxIterations ->
  iterationColor iterations maxIterations =
  iterationColor (Z.rem iterations 64) 64.
Proof.
  intros Hit. pose proof (Z.rem_bound_pos iterations 64) as Hrem.
  unfold iterationColor.
  destruct (Z.eqb_spec iterations maxIterations); [lia|].
  destruct (Z.eqb_spec (Z.rem iterations 64) 64); [lia|].
  destruct (Z.ltb_spec iterations maxIterations); [|lia].
  destruct (Z.ltb_spec (Z.rem iterations 64) 64); [|lia].
  by rewrite (Z.rem_small (Z.rem iterations 64) 64) by lia.
Qed.

End Palette.

Lemma binary64_palette :
  forallb (fun k => bright (iterationColor (D := float) k 64)) (seqZ 0 64)
  = true.
Proof. by vm_compute. Qed.

Lemma binary64_iterationColor_bright (iterations maxIterations : Z) :
  0 <= iterations < maxIterations ->
  bright (iterationColor (D := float) iterations maxIterations) = true.
Proof.
  intros Hit. rewrite iterationColor_residue by done.
  pose proof binary64_palette as Hall. rewrite forallb_forall in Hall.
  apply Hall. apply list_elem_of_In, elem_of_seqZ.
  pose proof (Z.rem_bound_pos iterations 64). lia.
Qed.

(** X8. In double precision a pixel is the opaque black [0xFF000000]
    exactly when the count of its point equals the budget of the pass: no
    point that escapes is drawn black. *)
Theorem binary64_black_is_inside (width height : Z)
    (xMin xMax yMin yMax : float) (maxIterations x y : Z) :
  0 <= maxIterations ->
  pixelColor width height xMin xMax yMin yMax maxIterations x y = 4278190080
  <->
  calculateMandelbrot
    (mapValue (of_int x) (of_int 0) (of_int width) xMin xMax)
    (mapValue (of_int y) (of_int 0) (of_int height) yMin yMax)
    maxIterations = maxIterations.
Proof.
  intros Hmax.
  destruct (pixelColor_sum width height xMin xMax yMin yMax maxIterations x y)
    as (r & g & b & Hr & Hg & Hb & Hcol & ->).
  set (count := calculateMandelbrot _ _ maxIterations) in *.
  assert (0 <= count <= maxIterations) as Hcount.
  { split; [apply mandel_loop_ge|apply mandel_loop_le; lia]. }
  unfold byte in *. split.
  - intros Hblack. destruct (Z.eq_dec count maxIterations); [done|].
    pose proof (binary64_iterationColor_bright count maxIterations) as Hbright.
    rewrite <- Hcol in Hbright. cbn [bright] in Hbright.
    rewrite !andb_true_iff in Hbright.
    destruct Hbright as [[[[[[Hr50 _] _] _] _] _] _]; [lia|].
    apply Z.leb_le in Hr50. lia.
  - intros Heq. rewrite Heq in Hcol. unfold iterationColor in Hcol.
    rewrite Z.eqb_refl in Hcol. injection Hcol as -> -> ->. lia.
Qed.

(** X8 at the centre of the initial view, a point inside the set. *)
Lemma binary64_black_is_inside_witness :
  pixelColor 800 600 (-2.5)%float 1%float (-1.5)%float 1.5%float 100 400 300
  = 4278190080.
Proof.
  apply (binary64_black_is_inside 800 600); [lia|by vm_compute].
Defined.

(** X9. In double precision the colour of every count below the budget has
    its three channels between 50 and 255 and its largest channel at 255:
    the hue runs at full value and saturation 0.8, which keeps every channel
    above a fifth of the scale. *)
Theorem binary64_palette_bright (iterations maxIterations : Z) :
  0 <= iterations < maxIterations ->
  let '(r, g, b) := iterationColor (D := float) iterations maxIterations in
  50 <= r <= 255 /\ 50 <= g <= 255 /\ 50 <= b <= 255 /\
  Z.max r (Z.max g b) = 255.
Proof.
  intros Hit.
  pose proof (binary64_iterationColor_bright iterations maxIterations Hit)
    as Hbright.
  destruct (iterationColor iterations maxIterations) as [[r g] b].
  cbn [bright] in Hbright. rewrite !andb_true_iff in Hbright.
  rewrite !Z.leb_le, Z.eqb_eq in Hbright. lia.
Qed.

(** X9 for the count 1 at the budget 100. *)
Lemma binary64_palette_bright_witness :
  let '(r, g, b) := iterationColor (D := float) 1 100 in
  50 <= r <= 255 /\ 50 <= g <= 255 /\ 50 <= b <= 255 /\
  Z.max r (Z.max g b) = 255.
Proof. apply (binary64_palette_bright 1 100). lia. Defined.

(** ** Workers and their rows *)

Section Workers.
Context {D : Type} `{DoubleOps D}.

Lemma store_lookup_other (pixels : list Z) (ws : list write) (j : nat) :
  j ∉ ws.*1 -> store pixels ws !! j = pixels !! j.
Proof.
  induction ws as [|w ws IH] using rev_ind; [done|].
  rewrite fmap_app, not_elem_of_app. intros [Hws Hw].
  rewrite store_snoc, list_lookup_insert_ne; [by apply IH|].
  intros Heq. apply Hw. cbn. rewrite Heq. by left.
Qed.

(** Every store of a worker is in one of its rows. *)
Lemma section_writes_row (w : write) startY endY width height
    (xMin xMax yMin yMax : D) maxIterations :
  0 <= startY ->
  w ∈ renderMandelbrotSection_writes startY endY width height
        xMin xMax yMin yMax maxIterations ->
  startY <= Z.of_nat w.1 / width < endY.
Proof.
  intros Hs Hw.
  apply elem_of_section_writes in Hw as (y & x & Hy & Hx & ->).
  cbn [fst]. rewrite Z2Nat.id by nia.
  replace ((y * width + x) / width) with y; [done|].
  apply (Z.div_unique _ _ _ x); lia.
Qed.

(** X10. In any arithmetic [renderMandelbrotSection] leaves every cell of
    the buffer outside its rows [startY <= y < endY] as it was, and does not
    change the size of the buffer. *)
Theorem renderMandelbrotSection_frame (pixels : list Z)
    (startY endY width height : Z) (xMin xMax yMin yMax : D)
    (maxIterations : Z) (j : nat) :
  0 <= startY ->
  ~ (startY <= Z.of_nat j / width < endY) ->
  renderMandelbrotSection pixels startY endY width height
    xMin xMax yMin yMax maxIterations !! j = pixels !! j /\
  length (renderMandelbrotSection pixels startY endY width height
            xMin xMax yMin yMax maxIterations) = length pixels.
Proof.
  intros Hs Hrow. unfold renderMandelbrotSection.
  split; [|apply length_store].
  apply store_lookup_other. intros Hj.
  apply list_elem_of_fmap in Hj as (w & -> & Hw).
  apply Hrow. by eapply section_writes_row.
Qed.

Lemma thread_traces_lookup NUM_THREADS (xMin xMax yMin yMax : D)
    maxIterations (i : nat) (t : list write) :
  thread_traces NUM_THREADS xMin xMax yMin yMax maxIterations !! i = Some t ->
  Z.of_nat i < NUM_THREADS /\
  t = renderMandelbrotSection_writes
        (section_rows NUM_THREADS (Z.of_nat i)).1
        (section_rows NUM_THREADS (Z.of_nat i)).2
        SCREEN_WIDTH SCREEN_HEIGHT xMin xMax yMin yMax maxIterations.
Proof.
  unfold thread_traces. rewrite list_lookup_fmap.
  destruct (seqZ 0 NUM_THREADS !! i) as [k|] eqn:Hk; [|done].
  apply lookup_seqZ in Hk as [-> Hi]. cbn. intros [= <-].
  rewrite Z.add_0_l. split; [done|].
  by destruct (section_rows NUM_THREADS (Z.of_nat i)).
Qed.

(** The rows of an earlier worker end where the rows of a later one
    start, or before. *)
Lemma section_rows_ordered NUM_THREADS i j :
  0 <= i < j -> j < NUM_THREADS ->
  (section_rows NUM_THREADS i).2 <= (section_rows NUM_THREADS j).1.
Proof.
  intros Hij Hj. unfold section_rows. cbn [fst snd].
  destruct (Z.eqb_spec i (NUM_THREADS - 1)); [lia|].
  assert (0 <= Z.quot SCREEN_HEIGHT NUM_THREADS)
    by (apply Z.quot_pos; unfold SCREEN_HEIGHT; lia).
  nia.
Qed.

Lemma workers_apart NUM_THREADS (xMin xMax yMin yMax : D) maxIterations
    (i j : nat) (ti tj : list write) (w w' : write) :
  (i < j)%nat ->
  thread_traces NUM_THREADS xMin xMax yMin yMax maxIterations !! i = Some ti ->
  thread_traces NUM_THREADS xMin xMax yMin yMax maxIterations !! j = Some tj ->
  w ∈ ti -> w' ∈ tj -> w.1 <> w'.1.
Proof.
  intros Hij Hi Hj Hw Hw' Heq.
  apply thread_traces_lookup in Hi as [Hi ->], Hj as [Hj ->].
  assert (1 <= NUM_THREADS) as HN by lia.
  apply section_writes_row in Hw, Hw';
    [|apply section_rows_start; lia..].
  pose proof (section_rows_ordered NUM_THREADS (Z.of_nat i) (Z.of_nat j)
                ltac:(lia) Hj).
  rewrite Heq in Hw. lia.
Qed.

(** X11. In any arithmetic no cell of the buffer is stored to by two
    different workers of a pass: the parallel stores never race. *)
Theorem workers_never_share_a_cell NUM_THREADS (xMin xMax yMin yMax : D)
    maxIterations (i j : nat) (ti tj : list write) (w w' : write) :
  i <> j ->
  thread_traces NUM_THREADS xMin xMax yMin yMax maxIterations !! i = Some ti ->
  thread_traces NUM_THREADS xMin xMax yMin yMax maxIterations !! j = Some tj ->
  w ∈ ti -> w' ∈ tj -> w.1 <> w'.1.
Proof.
  intros Hij Hi Hj Hw Hw'.
  destruct (Nat.lt_total i j) as [Hlt|[Heq|Hgt]]; [|done|].
  - by eapply workers_apart.
  - apply not_eq_sym. by eapply workers_apart.
Qed.

End Workers.

Lemma thread_traces_at NUM_THREADS (xMin xMax yMin yMax : float)
    maxIterations (i : Z) :
  0 <= i < NUM_THREADS ->
  thread_traces NUM_THREADS xMin xMax yMin yMax maxIterations !! Z.to_nat i =
  Some (renderMandelbrotSection_writes
          (section_rows NUM_THREADS i).1 (section_rows NUM_THREADS i).2
          SCREEN_WIDTH SCREEN_HEIGHT xMin xMax yMin yMax maxIterations).
Proof.
  intros Hi. unfold thread_traces.
  rewrite list_lookup_fmap, lookup_seqZ_lt by lia.
  cbn [fmap option_fmap option_map]. rewrite Z2Nat.id, Z.add_0_l by lia.
  by destruct (section_rows NUM_THREADS i).
Qed.

(** X10 on a buffer of two rows of two cells, for the worker of the second
    row: the first cell is kept. *)
Lemma renderMandelbrotSection_frame_witness :
  renderMandelbrotSection [7; 7; 7; 7] 1 2 2 2
    (-2.5)%float 1%float (-1.5)%float 1.5%float 100 !! 0%nat = Some 7.
Proof.
  apply (proj1 (renderMandelbrotSection_frame [7; 7; 7; 7] 1 2 2 2
                  (-2.5)%float 1%float (-1.5)%float 1.5%float 100 0
                  ltac:(lia) ltac:(intros [Hc _]; by apply Hc))).
Defined.

(** X11 for the first two of four workers: the first store of the one and
    the first store of the other, in rows 0 and 150. *)
Lemma workers_never_share_a_cell_witness :
  (Z.to_nat (0 * SCREEN_WIDTH + 0),
   pixelColor SCREEN_WIDTH SCREEN_HEIGHT
     (-2.5)%float 1%float (-1.5)%float 1.5%float 100 0 0).1 <>
  (Z.to_nat (150 * SCREEN_WIDTH + 0),
   pixelColor SCREEN_WIDTH SCREEN_HEIGHT
     (-2.5)%float 1%float (-1.5)%float 1.5%float 100 0 150).1.
Proof.
  eapply (workers_never_share_a_cell 4
            (-2.5)%float 1%float (-1.5)%float 1.5%float 100
            (Z.to_nat 0) (Z.to_nat 1)).
  - by compute.
  - apply thread_traces_at. lia.
  - apply thread_traces_at. lia.
  - apply elem_of_section_writes. exists 0, 0.
    split; [by compute|]. split; [by compute|done].
  - apply elem_of_section_writes. exists 150, 0.
    split; [by compute|]. split; [by compute|done].
Defined.

(** ** The iteration controller and the zoom *)

Section ControllerRange.
Context {D : Type} `{DoubleOps D}.

(** The two tests after the conversion leave a budget in range, and the
    function writes no other global. *)
Lemma updateIterations_value_range (st st' : State) :
  updateIterations st = Some st' ->
  100 <= MAX_ITERATIONS st' <= 2000 /\
  (xMin st', xMax st', yMin st', yMax st') =
  (xMin st, xMax st, yMin st, yMax st) /\
  (prev_xMin st', prev_xMax st', prev_yMin st', prev_yMax st') =
  (prev_xMin st, prev_xMax st, prev_yMin st, prev_yMax st) /\
  (needsUpdate st', isHighQuality st', isRenderingHighQuality st') =
  (needsUpdate st, isHighQuality st, isRenderingHighQuality st) /\
  screen st' = screen st.
Proof.
  unfold updateIterations. destruct (cast_signed 32 _) as [m|]; [|done].
  cbn [mbind option_bind]. intros [= <-].
  cbn [MAX_ITERATIONS xMin xMax yMin yMax prev_xMin prev_xMax prev_yMin
       prev_yMax needsUpdate isHighQuality isRenderingHighQuality screen].
  split; [|done].
  destruct (Z.ltb_spec m 100);
    [destruct (Z.gtb_spec 100 2000)|destruct (Z.gtb_spec m 2000)]; lia.
Qed.

(** X12. In any arithmetic, once [updateIterations] has run the budget lies
    between 100 and 2000 and a fast pass gets a budget between 25 and 500,
    and nothing else of the state has changed: not the bounds, the bounds of
    the last pass, the flags or the raster. *)
Theorem updateIterations_range (st st' : State) :
  updateIterations st = Some st' ->
  100 <= MAX_ITERATIONS st' <= 2000 /\
  25 <= Z.quot (MAX_ITERATIONS st') 4 <= 500 /\
  (xMin st', xMax st', yMin st', yMax st') =
  (xMin st, xMax st, yMin st, yMax st) /\
  (prev_xMin st', prev_xMax st', prev_yMin st', prev_yMax st') =
  (prev_xMin st, prev_xMax st, prev_yMin st, prev_yMax st) /\
  (needsUpdate st', isHighQuality st', isRenderingHighQuality st') =
  (needsUpdate st, isHighQuality st, isRenderingHighQuality st) /\
  screen st' = screen st.
Proof.
  intros Hup.
  destruct (updateIterations_value_range st st' Hup) as (Hm & Hrest).
  split; [done|]. split; [|done].
  rewrite Z.quot_div_nonneg by lia.
  split;
    [apply Z.div_le_lower_bound|apply Z.div_le_upper_bound]; lia.
Qed.

End ControllerRange.

(** X12 on the initial state, in double precision. *)
Lemma updateIterations_range_witness :
  exists st', updateIterations initial_state = Some st' /\
    100 <= MAX_ITERATIONS st' <= 2000.
Proof.
  eexists. split; [by vm_compute|].
  eapply (updateIterations_range initial_state). by vm_compute.
Defined.

Section ZoomBudgetExact.
Local Open Scope R_scope.

Lemma Int_part_le (a b : R) : a <= b -> (Int_part a <= Int_part b)%Z.
Proof.
  intros Hab. destruct (Int_part_bounds a), (Int_part_bounds b).
  apply Z.lt_succ_r, lt_IZR. rewrite succ_IZR. lra.
Qed.

(** The budget as a function of the width, when the conversion is
    defined. *)
Lemma exact_updateIterations_value (st st' : State (D := R)) :
  updateIterations st = Some st' ->
  MAX_ITERATIONS st' =
  Z.min 2000
    (Z.max 100 (Int_part (100 * sqrt (3.5 / (xMax st - xMin st))))).
Proof.
  unfold updateIterations, cast_signed.
  cbn [dtrunc dmul ddiv dsub dsqrt of_int dlit exact].
  replace (Q2R (35 # 10)) with 3.5 by (unfold Q2R; cbn [Qnum Qden]; lra).
  set (v := 100 * sqrt (3.5 / (xMax st - xMin st))).
  assert (0 <= v) by (unfold v; pose proof (sqrt_pos (3.5 / (xMax st - xMin st))); lra).
  rewrite Rtrunc_nonneg by done.
  destruct (_ && _); [|done]. cbn [mbind option_bind]. intros [= <-].
  cbn [MAX_ITERATIONS].
  destruct (Z.ltb_spec (Int_part v) 100);
    [destruct (Z.gtb_spec 100 2000)|destruct (Z.gtb_spec (Int_part v) 2000)];
    lia.
Qed.




End ZoomBudgetExact.


(** ** The loop of [main] *)

Section MainLoop.
Context {D : Type} `{DoubleOps D}.
Variable NUM_THREADS : Z.
Hypothesis NUM_THREADS_pos : 1 <= NUM_THREADS.
Set Default Proof Using "Type*".

(** A pass of low quality is never skipped. *)
Lemma renderMandelbrot_fast (pixels : list Z)
    (schedule : list (list write) -> list write) (st : State) :
  length pixels = Z.to_nat (SCREEN_WIDTH * SCREEN_HEIGHT) ->
  scheduler schedule ->
  renderMandelbrot NUM_THREADS pixels schedule false st =
  {| MAX_ITERATIONS := MAX_ITERATIONS st;
     xMin := xMin st; xMax := xMax st; yMin := yMin st; yMax := yMax st;
     prev_xMin := xMin st; prev_xMax := xMax st;
     prev_yMin := yMin st; prev_yMax := yMax st;
     needsUpdate := needsUpdate st;
     isHighQuality := isHighQuality st;
     isRenderingHighQuality := isRenderingHighQuality st;
     screen := raster (xMin st) (xMax st) (yMin st) (yMax st)
                 (Z.quot (MAX_ITERATIONS st) 4) |}.
Proof.
  intros Hlen Hsched. unfold renderMandelbrot. cbn [andb]. f_equal.
  by apply (schedule_raster NUM_THREADS).
Qed.

(** Nor is a precise pass while a redraw is pending. *)
Lemma renderMandelbrot_precise (pixels : list Z)
    (schedule : list (list write) -> list write) (st : State) :
  length pixels = Z.to_nat (SCREEN_WIDTH * SCREEN_HEIGHT) ->
  scheduler schedule ->
  needsUpdate st = true ->
  renderMandelbrot NUM_THREADS pixels schedule true st =
  {| MAX_ITERATIONS := MAX_ITERATIONS st;
     xMin := xMin st; xMax := xMax st; yMin := yMin st; yMax := yMax st;
     prev_xMin := xMin st; prev_xMax := xMax st;
     prev_yMin := yMin st; prev_yMax := yMax st;
     needsUpdate := false;
     isHighQuality := true;
     isRenderingHighQuality := false;
     screen := raster (xMin st) (xMax st) (yMin st) (yMax st)
                 (MAX_ITERATIONS st) |}.
Proof.
  intros Hlen Hsched Hnu. unfold renderMandelbrot. rewrite Hnu.
  cbn [andb negb]. f_equal. by apply (schedule_raster NUM_THREADS).
Qed.

(** The wheel event, step by step. *)
Lemma wheelEvent_effect (pixels : list Z)
    (schedule : list (list write) -> list write)
    (wheel_y mouseX mouseY ticks : Z) (l l' : Loop) :
  length pixels = Z.to_nat (SCREEN_WIDTH * SCREEN_HEIGHT) ->
  scheduler schedule ->
  wheelEvent NUM_THREADS pixels schedule wheel_y mouseX mouseY ticks l
    = Some l' ->
  exists m,
    100 <= m <= 2000 /\
    let zoomed := zoomViewport wheel_y mouseX mouseY (globals l) in
    l' =
    mkLoop
      {| MAX_ITERATIONS := m;
         xMin := xMin zoomed; xMax := xMax zoomed;
         yMin := yMin zoomed; yMax := yMax zoomed;
         prev_xMin := xMin zoomed; prev_xMax := xMax zoomed;
         prev_yMin := yMin zoomed; prev_yMax := yMax zoomed;
         needsUpdate := true;
         isHighQuality := false;
         isRenderingHighQuality := isRenderingHighQuality (globals l);
         screen := raster (xMin zoomed) (xMax zoomed) (yMin zoomed)
                     (yMax zoomed) (Z.quot m 4) |}
      ticks (quit l).
Proof.
  intros Hlen Hsched. unfold wheelEvent, onMouseWheel.
  destruct (updateIterations _) as [st1|] eqn:Hup; [|done].
  cbn [mbind option_bind]. intros [= <-].
  apply updateIterations_value_range in Hup as (Hm & Hb & Hp & Hf & Hs).
  exists (MAX_ITERATIONS st1). split; [done|]. cbv zeta.
  rewrite renderMandelbrot_fast by done.
  injection Hb as Hb1 Hb2 Hb3 Hb4. injection Hf as Hf1 Hf2 Hf3.
  cbn [markForRedraw MAX_ITERATIONS xMin xMax yMin yMax needsUpdate
       isHighQuality isRenderingHighQuality].
  rewrite Hb1, Hb2, Hb3, Hb4, Hf3.
  by destruct l.
Qed.

(** The invariant holds after the first pass and every step keeps it. *)
Lemma reachable_invariant (l : Loop) :
  reachable NUM_THREADS l -> loop_invariant l.
Proof.
  induction 1 as [pixels schedule Hlen Hsched|l l' _ IH Hstep].
  - unfold loop_invariant, startLoop. cbn [globals].
    rewrite renderMandelbrot_fast by done.
    cbn. repeat split; lia.
  - pose proof IH as (HR & HN & HM & HP & HS).
    destruct Hstep
      as [l|l|l l' pixels schedule wheel_y mouseX mouseY ticks Hlen Hsched Hev
         |l pixels schedule currentTime Hlen Hsched].
    + exact IH.
    + exact IH.
    + apply wheelEvent_effect in Hev as (m & Hm & ->); [|done..].
      unfold loop_invariant. cbn. rewrite HR. repeat split; (done || lia).
    + unfold twoPhaseCheck.
      destruct (needsUpdate (globals l)) eqn:Hnu; [|exact IH].
      destruct (_ && _); [|exact IH].
      unfold loop_invariant. cbn [globals].
      rewrite renderMandelbrot_precise by done.
      cbn. repeat split; (done || lia).
Qed.

(** X16. At every state of the loop of [main], after the first pass and
    after any events and checks, the three quality flags are in one of two
    of their eight combinations: a redraw is pending and the raster is of
    low quality, or none is pending and the raster is precise; a precise
    pass is never left marked as running. The budget lies between 100 and
    2000, and the bounds recorded for the last pass are those of the
    view. *)
Theorem loop_flags (l : Loop) :
  reachable NUM_THREADS l ->
  let st := globals l in
  ((needsUpdate st, isHighQuality st, isRenderingHighQuality st) =
   (true, false, false) \/
   (needsUpdate st, isHighQuality st, isRenderingHighQuality st) =
   (false, true, false)) /\
  100 <= MAX_ITERATIONS st <= 2000 /\
  (prev_xMin st, prev_xMax st, prev_yMin st, prev_yMax st) =
  (xMin st, xMax st, yMin st, yMax st).
Proof.
  intros Hl. destruct (reachable_invariant l Hl) as (HR & HN & HM & HP & _).
  cbv zeta. rewrite HR, HN. split; [|done].
  destruct (isHighQuality (globals l)); [by right|by left].
Qed.

(** X17. At every state of the loop of [main] the raster on the screen is
    the raster of the current view: at the full budget when the flag
    [isHighQuality] is set, at a quarter of it otherwise. No event leaves a
    picture of an earlier view behind. *)
Theorem loop_screen (l : Loop) :
  reachable NUM_THREADS l ->
  let st := globals l in
  screen st =
  raster (xMin st) (xMax st) (yMin st) (yMax st)
    (if isHighQuality st then MAX_ITERATIONS st
     else Z.quot (MAX_ITERATIONS st) 4).
Proof.
  intros Hl. by destruct (reachable_invariant l Hl) as (_ & _ & _ & _ & HS).
Qed.

(** X18. After a wheel event the check of the loop does nothing until more
    than 50 ms have passed on the wrapping 32-bit clock; the first check
    after that runs the precise pass, never skipped, which leaves the same
    view and budget, the raster at the full budget and the flags at rest;
    and from then on no check changes anything until the next event. *)
Theorem two_phase_redraw (l l1 : Loop) (pixels : list Z)
    (schedule : list (list write) -> list write)
    (wheel_y mouseX mouseY ticks : Z) :
  reachable NUM_THREADS l ->
  length pixels = Z.to_nat (SCREEN_WIDTH * SCREEN_HEIGHT) ->
  scheduler schedule ->
  wheelEvent NUM_THREADS pixels schedule wheel_y mouseX mouseY ticks l
    = Some l1 ->
  (forall p s t,
     (t - ticks) mod 2 ^ 32 <= RENDER_DELAY ->
     twoPhaseCheck NUM_THREADS p s t l1 = l1) /\
  (forall p s t,
     length p = Z.to_nat (SCREEN_WIDTH * SCREEN_HEIGHT) ->
     scheduler s ->
     RENDER_DELAY < (t - ticks) mod 2 ^ 32 ->
     let l2 := twoPhaseCheck NUM_THREADS p s t l1 in
     (needsUpdate (globals l2), isHighQuality (globals l2),
      isRenderingHighQuality (globals l2)) = (false, true, false) /\
     MAX_ITERATIONS (globals l2) = MAX_ITERATIONS (globals l1) /\
     (xMin (globals l2), xMax (globals l2),
      yMin (globals l2), yMax (globals l2)) =
     (xMin (globals l1), xMax (globals l1),
      yMin (globals l1), yMax (globals l1)) /\
     screen (globals l2) =
     raster (xMin (globals l1)) (xMax (globals l1))
       (yMin (globals l1)) (yMax (globals l1)) (MAX_ITERATIONS (globals l1)) /\
     forall p' s' t', twoPhaseCheck NUM_THREADS p' s' t' l2 = l2).
Proof.
  intros Hl Hlen Hsched Hev.
  destruct (reachable_invariant l Hl) as (HR & _).
  apply wheelEvent_effect in Hev as (m & Hm & ->); [|done..].
  cbv zeta. rewrite HR. split.
  - intros p s t Ht. unfold twoPhaseCheck. cbn [globals lastRenderTime].
    cbn [needsUpdate isHighQuality isRenderingHighQuality andb negb].
    destruct (Z.gtb_spec ((t - ticks) mod 2 ^ 32) RENDER_DELAY); [lia|done].
  - intros p s t Hp Hs Ht.
    match goal with
    | |- context [twoPhaseCheck _ p s t ?l1] =>
        assert (twoPhaseCheck NUM_THREADS p s t l1 =
                mkLoop
                  (renderMandelbrot NUM_THREADS p s true
                     (startHighQuality (globals l1)))
                  (lastRenderTime l1) (quit l1)) as ->
    end.
    { unfold twoPhaseCheck. cbn [globals lastRenderTime].
      cbn [needsUpdate isHighQuality isRenderingHighQuality andb negb].
      destruct (Z.gtb_spec ((t - ticks) mod 2 ^ 32) RENDER_DELAY);
        [done|lia]. }
    rewrite renderMandelbrot_precise by done.
    cbn. repeat split.
Qed.

(** X19. In any arithmetic the guard of the precise pass works as a
    one-entry cache: when each bound of the view compares equal to itself, a
    second call for a precise pass right after a first changes nothing,
    whether the first was skipped or not. *)
Theorem precise_pass_once (pixels pixels' : list Z)
    (schedule schedule' : list (list write) -> list write) (st : State) :
  (xMin st =? xMin st)%D = true ->
  (xMax st =? xMax st)%D = true ->
  (yMin st =? yMin st)%D = true ->
  (yMax st =? yMax st)%D = true ->
  renderMandelbrot NUM_THREADS pixels' schedule' true
    (renderMandelbrot NUM_THREADS pixels schedule true st) =
  renderMandelbrot NUM_THREADS pixels schedule true st.
Proof.
  intros Hx0 Hx1 Hy0 Hy1.
  unfold renderMandelbrot at 2 3.
  destruct (_ && _) eqn:Hskip.
  - unfold renderMandelbrot. by rewrite Hskip.
  - unfold renderMandelbrot.
    cbn [needsUpdate prev_xMin prev_xMax prev_yMin prev_yMax
         xMin xMax yMin yMax].
    by rewrite Hx0, Hx1, Hy0, Hy1.
Qed.

Set Default Proof Using "Type".

End MainLoop.

Lemma scheduler_concat : scheduler (@concat write).
Proof. intros ts. apply interleaving_concat. Qed.

(** The loop of [main] in double precision, with four workers that run one
    after the other on zeroed buffers, after its first pass. *)
Lemma reachable_first_pass :
  reachable 4
    (startLoop (D := float) 4
       (replicate (Z.to_nat (SCREEN_WIDTH * SCREEN_HEIGHT)) 0)
       (@concat write)).
Proof.
  apply reachable_start; [apply length_replicate|apply scheduler_concat].
Qed.

(** X16 after the first pass. *)
Lemma loop_flags_witness :
  let st :=
    globals
      (startLoop (D := float) 4
         (replicate (Z.to_nat (SCREEN_WIDTH * SCREEN_HEIGHT)) 0)
         (@concat write)) in
  ((needsUpdate st, isHighQuality st, isRenderingHighQuality st) =
   (true, false, false) \/
   (needsUpdate st, isHighQuality st, isRenderingHighQuality st) =
   (false, true, false)) /\
  100 <= MAX_ITERATIONS st <= 2000 /\
  (prev_xMin st, prev_xMax st, prev_yMin st, prev_yMax st) =
  (xMin st, xMax st, yMin st, yMax st).
Proof.
  apply (loop_flags 4 ltac:(lia)). apply reachable_first_pass.
Defined.

(** X17 after the first pass. *)
Lemma loop_screen_witness :
  let st :=
    globals
      (startLoop (D := float) 4
         (replicate (Z.to_nat (SCREEN_WIDTH * SCREEN_HEIGHT)) 0)
         (@concat write)) in
  screen st =
  raster (xMin st) (xMax st) (yMin st) (yMax st)
    (if isHighQuality st then MAX_ITERATIONS st
     else Z.quot (MAX_ITERATIONS st) 4).
Proof.
  apply (loop_screen 4 ltac:(lia)). apply reachable_first_pass.
Defined.

(** The first wheel-up at the centre of the window is defined: the budget
    becomes 111. *)
Lemma first_wheel_event :
  exists l1,
    wheelEvent 4 (replicate (Z.to_nat (SCREEN_WIDTH * SCREEN_HEIGHT)) 0)
      (@concat write) 1 400 300 1000
      (startLoop (D := float) 4
         (replicate (Z.to_nat (SCREEN_WIDTH * SCREEN_HEIGHT)) 0)
         (@concat write)) = Some l1.
Proof.
  unfold wheelEvent, onMouseWheel, startLoop. cbn [globals].
  rewrite (renderMandelbrot_fast 4 ltac:(lia))
    by (apply length_replicate || apply scheduler_concat).
  unfold updateIterations.
  cbn [zoomViewport xMin xMax yMin yMax startState].
  match goal with
  | |- context [cast_signed 32 ?d] =>
      replace (cast_signed 32 d) with (Some 111) by (by vm_compute)
  end.
  cbn [mbind option_bind]. by eexists.
Qed.

(** X18 for the first wheel-up, at the time 1000 of the clock. *)
Lemma two_phase_redraw_witness :
  exists l1,
    wheelEvent 4 (replicate (Z.to_nat (SCREEN_WIDTH * SCREEN_HEIGHT)) 0)
      (@concat write) 1 400 300 1000
      (startLoop (D := float) 4
         (replicate (Z.to_nat (SCREEN_WIDTH * SCREEN_HEIGHT)) 0)
         (@concat write)) = Some l1 /\
    forall p s t,
      (t - 1000) mod 2 ^ 32 <= RENDER_DELAY ->
      twoPhaseCheck 4 p s t l1 = l1.
Proof.
  destruct first_wheel_event as [l1 Hl1]. exists l1. split; [done|].
  apply (two_phase_redraw 4 ltac:(lia) _ l1 _ _ 1 400 300 1000
           reachable_first_pass (length_replicate _ _) scheduler_concat Hl1).
Defined.

(** X19 on the state a precise pass of the initial view leaves. *)
Lemma precise_pass_once_witness :
  renderMandelbrot 4 [] (@concat write) true
    (renderMandelbrot 4 [] (@concat write) true idle_state) =
  renderMandelbrot 4 [] (@concat write) true idle_state.
Proof. apply (precise_pass_once 4 ltac:(lia)); by vm_compute. Defined.

(** ** The tone of a click *)

Section ToneExact.
Local Open Scope R_scope.

(** X20. In exact arithmetic and for a budget of at least 1, the tone of a
    click, synthesised from the count the evaluator returns for the budget
    [MAX_ITERATIONS], has the primary frequency 110 Hz exactly when the point
    is classified inside the set, and a primary frequency strictly between
    220 and 880 Hz otherwise. *)
Theorem click_tone (MAX : Z) (real imag : R) :
  (1 <= MAX)%Z ->
  let count := calculateMandelbrot real imag MAX in
  (primaryFreq MAX count = 110 <-> count = MAX) /\
  (count <> MAX -> 220 < primaryFreq MAX count < 880).
Proof.
  intros HM count.
  assert (1 <= count <= MAX)%Z as Hcount.
  { split.
    - apply calculateMandelbrot_ge_1; [apply exact_first_test|done].
    - apply mandel_loop_le. lia. }
  assert (count <> MAX -> 220 < primaryFreq MAX count < 880) as Hout.
  { intros Hne. rewrite exact_primaryFreq_outside by lia.
    unfold linear_map. rewrite !Rminus_0_r.
    assert (0 < IZR count / IZR MAX < 1); [|lra].
    assert (0 < IZR MAX) by (apply IZR_lt; lia).
    assert (0 < IZR count < IZR MAX)
      by (split; apply IZR_lt; lia).
    split.
    - apply Rdiv_lt_0_compat; lra.
    - apply (Rmult_lt_reg_r (IZR MAX)); [lra|].
      unfold Rdiv. rewrite Rmult_assoc, Rinv_l; lra. }
  split; [|done]. split.
  - intros Hf. destruct (Z.eq_dec count MAX) as [|Hne]; [done|].
    apply Hout in Hne. lra.
  - intros ->. apply exact_primaryFreq_inside. lia.
Qed.

(** *** The envelope *)

Lemma exact_envelope_start : envelope (dlit 1) 0 = 0.
Proof.
  unfold envelope. cbn [dadd dsub dmul ddiv dltb dlit exact]. literals.
  rewrite (proj2 (Rltb_true 0 (5 * / 100))) by lra. lra.
Qed.

Lemma exact_envelope_sustain (time : R) :
  0.15 <= time < 1 -> 0 <= envelope (dlit 1) time <= 0.7.
Proof.
  intros Ht. unfold envelope.
  cbn [dadd dsub dmul ddiv dltb dlit exact]. literals.
  rewrite (proj2 (Rltb_false time (5 * / 100))) by lra.
  rewrite (proj2 (Rltb_false time (5 * / 100 + 1 * / 10))) by lra.
  destruct (Rltb time (1 * / 1 - 3 * / 10)) eqn:Hc;
    [apply Rltb_true in Hc|apply Rltb_false in Hc]; lra.
Qed.

Lemma Rtrunc_below (x : R) (n : Z) :
  (0 <= n)%Z -> - IZR (n + 1) < x < IZR (n + 1) ->
  (- n <= Rtrunc x <= n)%Z.
Proof.
  intros Hn [Hlo Hhi]. unfold Rtrunc. destruct (Rle_dec 0 x) as [Hx|Hx].
  - destruct (Int_part_between x 0 (n + 1)); [lra|lra|lia].
  - destruct (Int_part_between (- x) 0 (n + 1)); [lra|lra|lia].
Qed.

(** A sample is within the envelope at its time, on the scale of 32767. *)
Lemma exact_soundSample_amplitude (p s1 s2 h : R) (i a : Z) :
  (0 <= i < SAMPLE_RATE)%Z ->
  (0 <= a <= 32767)%Z ->
  envelope (dlit 1) (IZR i / IZR SAMPLE_RATE) * 32767 < IZR (a + 1) ->
  exists s, soundSample p s1 s2 h (dlit 1) i = Some s /\ (- a <= s <= a)%Z.
Proof.
  intros Hi Ha Henv. unfold soundSample, cast_signed.
  cbn [dtrunc dadd dsub dmul ddiv dsin M_PI of_int exact exact_libm].
  set (time := IZR i / IZR SAMPLE_RATE) in *.
  assert (0 <= time < 1) as Ht.
  { unfold time, SAMPLE_RATE in *. destruct Hi as [Hi0 Hi1].
    apply IZR_le in Hi0. apply IZR_lt in Hi1. split.
    - apply Rmult_le_pos; lra.
    - apply (Rmult_lt_reg_r 44100); [lra|]. unfold Rdiv.
      rewrite Rmult_assoc, Rinv_l; lra. }
  pose proof (exact_envelope_bounds time Ht) as He.
  set (env := envelope (dlit 1) time) in *.
  match goal with
  | |- context [Rtrunc ?v] => set (sample := v)
  end.
  assert (- IZR (a + 1) < sample < IZR (a + 1)) as Hs.
  { unfold sample.
    pose proof (SIN_bound (dlit 2 * PI * p * time)).
    pose proof (SIN_bound (dlit 2 * PI * s1 * time)).
    pose proof (SIN_bound (dlit 2 * PI * s2 * time)).
    pose proof (SIN_bound (dlit 2 * PI * h * time)).
    cbn [dlit exact] in *. literals.
    match goal with
    | |- _ < ?mix * env * _ < _ =>
        assert (-1 <= mix <= 1) as Hmix by lra;
        set (m := mix) in *; clearbody m
    end.
    nra. }
  apply Rtrunc_below in Hs; [|lia].
  exists (Rtrunc sample). split; [|lia].
  replace (- 2 ^ (16 - 1) <=? Rtrunc sample)%Z with true
    by (symmetry; apply Z.leb_le; cbn; lia).
  replace (Rtrunc sample <? 2 ^ (16 - 1))%Z with true
    by (symmetry; apply Z.ltb_lt; cbn; lia).
  done.
Qed.


End ToneExact.

(** X20 at the point -1, inside the set, with the initial budget. *)
Lemma click_tone_witness :
  primaryFreq 100 (calculateMandelbrot (-1)%R 0%R 100) = 110%R <->
  calculateMandelbrot (-1)%R 0%R 100 = 100.
Proof. apply (click_tone 100 (-1)%R 0%R). lia. Defined.

(** ** The two renderers in exact arithmetic *)

Section RenderersExact.
Local Open Scope R_scope.

(** The sector of the hue of a count: an integer from 0 to 5. *)
Lemma exact_hue_sector (iterations : Z) :
  (0 <= iterations)%Z ->
  (0 <= to_int
          (dmul (mapValue (of_int (Z.rem iterations 64)) (of_int 0)
                   (of_int 64) (of_int 0) (of_int 1)) (dlit 6)) <= 5)%Z.
Proof.
  intros Hit. pose proof (Z.rem_bound_pos iterations 64 Hit ltac:(lia)) as Hk.
  set (k := Z.rem iterations 64) in *.
  unfold to_int, cast_signed, mapValue.
  cbn [dtrunc dadd dsub dmul ddiv of_int dlit exact]. literals.
  set (h := (0 + (1 - 0) * ((IZR k - 0) / (64 - 0))) * (6 * / 1)).
  assert (0 <= h < 6) as Hh.
  { destruct Hk as [Hk0 Hk1]. apply IZR_le in Hk0. apply IZR_lt in Hk1.
    unfold h. lra. }
  rewrite Rtrunc_nonneg by lra.
  destruct (Int_part_between h 0 6) as [Hi0 Hi1]; [lra..|].
  replace (- 2 ^ (32 - 1) <=? Int_part h)%Z with true
    by (symmetry; apply Z.leb_le; cbn; lia).
  replace (Int_part h <? 2 ^ (32 - 1))%Z with true
    by (symmetry; apply Z.ltb_lt; cbn; lia).
  cbn [andb]. lia.
Qed.

Lemma exact_to_Uint8_255 : to_Uint8 (dmul (dlit 1) (of_int 255)) = 255%Z.
Proof.
  unfold to_Uint8, cast_unsigned. cbn [dtrunc dmul of_int dlit exact].
  replace (Q2R 1 * 255) with (IZR 255) by (literals; lra).
  by rewrite Rtrunc_nonneg, Int_part_IZR by lra.
Qed.

(** Outside the set one channel is at 255, in both renderers. *)
Lemma exact_iterationColor_255 (iterations maxIterations : Z) :
  (0 <= iterations < maxIterations)%Z ->
  exists r g b,
    iterationColor (D := R) iterations maxIterations = (r, g, b) /\
    byte r /\ byte g /\ byte b /\ (r = 255 \/ g = 255 \/ b = 255)%Z.
Proof.
  intros Hit.
  pose proof (iterationColor_bytes (D := R) iterations maxIterations)
    as (Hr & Hg & Hb).
  pose proof (exact_hue_sector iterations ltac:(lia)) as Hi.
  revert Hr Hg Hb. unfold iterationColor.
  destruct (Z.eqb_spec iterations maxIterations); [lia|].
  destruct (Z.ltb_spec iterations maxIterations); [|lia].
  cbv zeta. set (i := to_int _) in *.
  rewrite (Z.rem_small i 6) by lia. rewrite exact_to_Uint8_255.
  assert (i = 0 \/ i = 1 \/ i = 2 \/ i = 3 \/ i = 4 \/ i = 5)%Z
    as [->|[->|[->|[->|[->| ->]]]]] by lia;
    cbn [fst snd]; intros Hr Hg Hb; do 3 eexists;
    (split; [reflexivity|]); (split; [exact Hr|]); (split; [exact Hg|]);
    (split; [exact Hb|]); auto.
Qed.

Lemma Man_iterationColor_bytes (iterations : Z) :
  byte (Man.iterationColor (D := R) iterations).1.1 /\
  byte (Man.iterationColor (D := R) iterations).1.2 /\
  byte (Man.iterationColor (D := R) iterations).2.
Proof.
  unfold Man.iterationColor.
  destruct (iterations =? Man.MAX_ITERATIONS)%Z; [by cbn|].
  cbv zeta.
  repeat match goal with
         | |- context [match ?p with _ => _ end] => destruct p
         end;
    cbn [fst snd]; repeat split; (apply to_Uint8_byte || by compute).
Qed.

Lemma Man_iterationColor_255 (iterations : Z) :
  (0 <= iterations < Man.MAX_ITERATIONS)%Z ->
  exists r g b,
    Man.iterationColor (D := R) iterations = (r, g, b) /\
    byte r /\ byte g /\ byte b /\ (r = 255 \/ g = 255 \/ b = 255)%Z.
Proof.
  intros Hit.
  pose proof (Man_iterationColor_bytes iterations) as (Hr & Hg & Hb).
  pose proof (exact_hue_sector iterations ltac:(lia)) as Hi.
  revert Hr Hg Hb. unfold Man.iterationColor.
  destruct (Z.eqb_spec iterations Man.MAX_ITERATIONS); [lia|].
  cbv zeta. set (i := to_int _) in *.
  rewrite (Z.rem_small i 6) by lia.
  assert (i = 0 \/ i = 1 \/ i = 2 \/ i = 3 \/ i = 4 \/ i = 5)%Z
    as [->|[->|[->|[->|[->| ->]]]]] by lia;
    cbn [fst snd]; intros Hr Hg Hb; do 3 eexists;
    (split; [reflexivity|]); (split; [exact Hr|]); (split; [exact Hg|]);
    (split; [exact Hb|]); auto.
Qed.

Lemma exact_black_is_inside (width height : Z) (xMin xMax yMin yMax : R)
    (maxIterations x y : Z) :
  (0 <= maxIterations)%Z ->
  pixelColor width height xMin xMax yMin yMax maxIterations x y
    = 4278190080%Z <->
  calculateMandelbrot
    (mapValue (of_int x) (of_int 0) (of_int width) xMin xMax)
    (mapValue (of_int y) (of_int 0) (of_int height) yMin yMax)
    maxIterations = maxIterations.
Proof.
  intros Hmax. unfold pixelColor. cbv zeta.
  set (count := calculateMandelbrot _ _ maxIterations).
  assert (0 <= count <= maxIterations)%Z as Hcount.
  { split; [apply mandel_loop_ge|apply mandel_loop_le; lia]. }
  split.
  - intros Hblack. destruct (Z.eq_dec count maxIterations); [done|].
    destruct (exact_iterationColor_255 count maxIterations)
      as (r & g & b & Hcol & Hr & Hg & Hb & H255); [lia|].
    rewrite Hcol, packRGBA_sum in Hblack by done.
    unfold byte in *. lia.
  - intros ->. unfold iterationColor. by rewrite Z.eqb_refl.
Qed.

Lemma Man_count_range (real imag : R) :
  (0 <= Man.calculateMandelbrot real imag <= Man.MAX_ITERATIONS)%Z.
Proof.
  unfold Man.calculateMandelbrot. split; [apply Man_mandel_loop_ge|].
  rewrite mandel_loops_agree. apply mandel_loop_le.
  unfold Man.MAX_ITERATIONS. lia.
Qed.

Lemma Man_black_is_inside (v : Man.View (D := R)) (x y : Z) :
  Man.pixelColor v x y = 4278190080%Z <->
  Man.calculateMandelbrot
    (mapValue (of_int x) (of_int 0) (of_int Man.SCREEN_WIDTH)
       (Man.xMin v) (Man.xMax v))
    (mapValue (of_int y) (of_int 0) (of_int Man.SCREEN_HEIGHT)
       (Man.yMin v) (Man.yMax v)) = Man.MAX_ITERATIONS.
Proof.
  unfold Man.pixelColor. cbv zeta.
  set (count := Man.calculateMandelbrot _ _).
  pose proof (Man_count_range
    (mapValue (of_int x) (of_int 0) (of_int Man.SCREEN_WIDTH)
       (Man.xMin v) (Man.xMax v))
    (mapValue (of_int y) (of_int 0) (of_int Man.SCREEN_HEIGHT)
       (Man.yMin v) (Man.yMax v))) as Hcount.
  fold count in Hcount. split.
  - intros Hblack. destruct (Z.eq_dec count Man.MAX_ITERATIONS); [done|].
    destruct (Man_iterationColor_255 count)
      as (r & g & b & Hcol & Hr & Hg & Hb & H255); [lia|].
    rewrite Hcol, createRGBA_sum in Hblack by (done || by compute).
    unfold byte in *. lia.
  - intros ->. unfold Man.iterationColor. by rewrite Z.eqb_refl.
Qed.

(** X22. In exact arithmetic both renderers draw in opaque black exactly
    the points whose count reaches the budget, and so, pixel by pixel,
    man.cpp and a pass of 2man.cpp with the budget 1000 over the same view
    show the same black region. *)
Theorem renderers_agree_on_black (v : Man.View (D := R)) (x y : Z) :
  (Man.pixelColor v x y = 4278190080%Z <->
   Man.calculateMandelbrot
     (mapValue (of_int x) (of_int 0) (of_int Man.SCREEN_WIDTH)
        (Man.xMin v) (Man.xMax v))
     (mapValue (of_int y) (of_int 0) (of_int Man.SCREEN_HEIGHT)
        (Man.yMin v) (Man.yMax v)) = 1000%Z) /\
  (Man.pixelColor v x y = 4278190080%Z <->
   pixelColor SCREEN_WIDTH SCREEN_HEIGHT
     (Man.xMin v) (Man.xMax v) (Man.yMin v) (Man.yMax v) 1000 x y
   = 4278190080%Z).
Proof.
  split; [apply Man_black_is_inside|].
  rewrite Man_black_is_inside, exact_black_is_inside by lia.
  unfold Man.calculateMandelbrot. rewrite mandel_loops_agree.
  cbn [of_int exact]. replace (0 * 0) with 0 by ring.
  unfold calculateMandelbrot. cbn [of_int exact]. done.
Qed.

End RenderersExact.

(** ** The renderer and the zoom of man.cpp *)

Section ManRenderer.
Context {D : Type} `{DoubleOps D} `{LibmOps D}.

Lemma elem_of_Man_writes (w : write) (v : Man.View) :
  w ∈ Man.renderMandelbrot_writes v <->
  exists y x, 0 <= y < Man.SCREEN_HEIGHT /\ 0 <= x < Man.SCREEN_WIDTH /\
    w = (Z.to_nat (y * Man.SCREEN_WIDTH + x), Man.pixelColor v x y).
Proof.
  unfold Man.renderMandelbrot_writes. rewrite list_elem_of_bind. split.
  - intros (y & Hw & Hy). apply list_elem_of_fmap in Hw as (x & -> & Hx).
    apply elem_of_seqZ in Hy, Hx. exists y, x. repeat split; lia.
  - intros (y & x & Hy & Hx & ->). exists y. split.
    + apply list_elem_of_fmap. exists x. split; [done|].
      apply elem_of_seqZ. lia.
    + apply elem_of_seqZ. lia.
Qed.

(** X23. In any arithmetic the renderer of man.cpp stores to every cell of
    its buffer of 800 x 600 cells: the raster it hands over has, at every
    index [j], the pixel of column [j mod 800] and row [j / 800], and owes
    nothing to what the buffer held when it was allocated. *)
Theorem Man_renderMandelbrot_fills (pixels : list Z) (v : Man.View) :
  length pixels = Z.to_nat (Man.SCREEN_WIDTH * Man.SCREEN_HEIGHT) ->
  Man.renderMandelbrot pixels v =
  (fun j : nat =>
     Man.pixelColor v (Z.of_nat j mod Man.SCREEN_WIDTH)
       (Z.of_nat j / Man.SCREEN_WIDTH))
    <$> seq 0 (Z.to_nat (Man.SCREEN_WIDTH * Man.SCREEN_HEIGHT)).
Proof.
  intros Hlen. unfold Man.renderMandelbrot. rewrite <- Hlen.
  assert (0 < Man.SCREEN_WIDTH) as HW by reflexivity.
  assert (0 <= Man.SCREEN_HEIGHT) as HH by (intros Hc; discriminate Hc).
  apply store_table.
  - apply Forall_forall. intros w Hw.
    apply elem_of_Man_writes in Hw as (y & x & Hy & Hx & ->).
    cbn [fst snd]. rewrite Z2Nat.id by nia.
    rewrite <- (Z.mod_unique (y * Man.SCREEN_WIDTH + x) Man.SCREEN_WIDTH y x)
      by lia.
    by rewrite <- (Z.div_unique (y * Man.SCREEN_WIDTH + x) Man.SCREEN_WIDTH y x)
      by lia.
  - intros j Hj. rewrite Hlen in Hj. apply list_elem_of_fmap.
    exists (Z.to_nat (Z.of_nat j / Man.SCREEN_WIDTH * Man.SCREEN_WIDTH +
                      Z.of_nat j mod Man.SCREEN_WIDTH),
            Man.pixelColor v (Z.of_nat j mod Man.SCREEN_WIDTH)
              (Z.of_nat j / Man.SCREEN_WIDTH)).
    split.
    + cbn [fst]. rewrite Z.mul_comm, <- Z.div_mod by lia. lia.
    + apply elem_of_Man_writes.
      exists (Z.of_nat j / Man.SCREEN_WIDTH),
             (Z.of_nat j mod Man.SCREEN_WIDTH).
      split; [|split; [apply Z.mod_pos_bound; lia|reflexivity]].
      split; [apply Z.div_pos; lia|].
      apply Z.div_lt_upper_bound; lia.
Qed.

End ManRenderer.

(** X23 on a zeroed buffer, for the initial view of man.cpp in exact
    arithmetic. *)
Lemma Man_renderMandelbrot_fills_witness :
  Man.renderMandelbrot
    (replicate (Z.to_nat (Man.SCREEN_WIDTH * Man.SCREEN_HEIGHT)) 0)
    (Man.mkView (-2.5)%R 1%R (-1.5)%R 1.5%R) =
  (fun j : nat =>
     Man.pixelColor (Man.mkView (-2.5)%R 1%R (-1.5)%R 1.5%R)
       (Z.of_nat j mod Man.SCREEN_WIDTH) (Z.of_nat j / Man.SCREEN_WIDTH))
    <$> seq 0 (Z.to_nat (Man.SCREEN_WIDTH * Man.SCREEN_HEIGHT)).
Proof. apply Man_renderMandelbrot_fills. apply length_replicate. Defined.

Section ManZoomExact.
Local Open Scope R_scope.


End ManZoomExact.


(** ** The tone of man.cpp *)

Section ManToneExact.
Local Open Scope R_scope.

Lemma sin_3a (u : R) :
  sin (3 * u) = 3 * sin u - 4 * (sin u * sin u * sin u).
Proof.
  replace (3 * u) with (2 * u + u) by ring.
  rewrite sin_plus, sin_2a, cos_2a_sin.
  pose proof (sin2_cos2 u) as Hsc. unfold Rsqr in Hsc.
  replace (2 * sin u * cos u * cos u) with (2 * sin u * (cos u * cos u))
    by ring.
  replace (cos u * cos u) with (1 - sin u * sin u) by lra.
  ring.
Qed.

(** On the unit circle the fundamental and its fifth, with the weights 0.5
    and 0.1, stay below 0.59: they never peak together. *)
Lemma fifth_polynomial (s c : R) :
  s * s + c * c = 1 -> s * c + 0.3 * s - 0.4 * (s * s * s) <= 0.59.
Proof.
  intros Hsc.
  assert (0 <= c * c) by apply Rle_0_sqr.
  assert (s * s <= 1) by lra.
  destruct (Rle_dec 0 s) as [Hs|Hs].
  - assert (s <= 1) by nra.
    assert (s * c <= 0.4 + 0.225 * (s * s)).
    { pose proof (Rle_0_sqr (1.25 * s - c)) as Hsq. unfold Rsqr in Hsq. lra. }
    assert (0 <= (s - 0.72) * (s - 0.72) * (s + 0.8775)).
    { apply Rmult_le_pos; [apply Rle_0_sqr|lra]. }
    lra.
  - assert (s * c <= 0.5).
    { pose proof (Rle_0_sqr (s - c)) as Hsq. unfold Rsqr in Hsq. lra. }
    destruct (Rle_dec (s * s) 0.75) as [Hq|Hq].
    + assert (0 <= - s * (0.3 - 0.4 * (s * s))) by (apply Rmult_le_pos; lra).
      lra.
    + assert (s * c <= 1 - 0.75 * (s * s)).
      { pose proof (Rle_0_sqr (0.5 * s - c)) as Hsq. unfold Rsqr in Hsq.
        lra. }
      assert (-1 <= s) by nra.
      assert (0 <= (s + 1) * (1 - s * s)) by (apply Rmult_le_pos; lra).
      nra.
Qed.

Lemma exact_fifth (a : R) :
  -0.59 <= 0.5 * sin a + 0.1 * sin (1.5 * a) <= 0.59.
Proof.
  assert (forall u, 0.5 * sin (2 * u) + 0.1 * sin (3 * u) <= 0.59) as Hup.
  { intros u. rewrite sin_2a, sin_3a.
    pose proof (sin2_cos2 u) as Hsc. unfold Rsqr in Hsc.
    pose proof (fifth_polynomial (sin u) (cos u) Hsc). lra. }
  split.
  - pose proof (Hup (- (a / 2))) as Hlow.
    replace (2 * - (a / 2)) with (- a) in Hlow by lra.
    replace (3 * - (a / 2)) with (- (1.5 * a)) in Hlow by lra.
    rewrite !sin_neg in Hlow. lra.
  - pose proof (Hup (a / 2)) as Hhigh.
    replace (2 * (a / 2)) with a in Hhigh by lra.
    replace (3 * (a / 2)) with (1.5 * a) in Hhigh by lra.
    done.
Qed.

Lemma Man_exact_envelope_bounds (time : R) :
  0 <= time < 1.5 -> 0 <= Man.envelope (dlit (15 # 10)) time <= 1.
Proof.
  intros Ht. unfold Man.envelope.
  cbn [dadd dsub dmul ddiv dltb dlit exact]. literals.
  repeat match goal with
         | |- context [Rltb ?a ?b] =>
             let Hc := fresh "Hc" in
             destruct (Rltb a b) eqn:Hc;
             [apply Rltb_true in Hc|apply Rltb_false in Hc]
         end; lra.
Qed.

(** A sample of man.cpp converts, and fits 16 bits with its sign. *)
Lemma Man_exact_soundSample (p s1 s2 : R) (i : Z) :
  (0 <= i < 66150)%Z ->
  exists s,
    Man.soundSample p s1 s2 (dmul p (dlit (15 # 10))) (dlit (15 # 10)) i
      = Some s /\
    (-32767 <= s <= 32767)%Z.
Proof.
  intros Hi. unfold Man.soundSample, cast_signed.
  cbn [dtrunc dadd dsub dmul ddiv dsin M_PI of_int exact exact_libm].
  set (time := IZR i / IZR Man.SAMPLE_RATE).
  assert (0 <= time < 1.5) as Ht.
  { unfold time, Man.SAMPLE_RATE in *. destruct Hi as [Hi0 Hi1].
    apply IZR_le in Hi0. apply IZR_lt in Hi1. split.
    - apply Rmult_le_pos; lra.
    - apply (Rmult_lt_reg_r 44100); [lra|]. unfold Rdiv.
      rewrite Rmult_assoc, Rinv_l; lra. }
  pose proof (Man_exact_envelope_bounds time Ht) as He.
  set (env := Man.envelope (dlit (15 # 10)) time) in *.
  match goal with
  | |- context [Rtrunc ?v] => set (sample := v)
  end.
  assert (- IZR 32767 <= sample <= IZR 32767) as Hs.
  { unfold sample. cbn [dlit exact]. literals.
    set (a := 2 * / 1 * PI * p * time).
    replace (2 * / 1 * PI * (p * (15 * / 10)) * time) with (1.5 * a)
      by (unfold a; lra).
    pose proof (exact_fifth a) as Hfifth.
    pose proof (SIN_bound (2 * / 1 * PI * s1 * time)) as H1.
    pose proof (SIN_bound (2 * / 1 * PI * s2 * time)) as H2.
    set (vibrato := sin (2 * / 1 * PI * (6 * / 1) * time) * (1 * / 100)).
    pose proof (SIN_bound (2 * / 1 * PI * (6 * / 1) * time)) as Hv.
    pose proof (SIN_bound (2 * / 1 * PI * p * (1 * / 1 + vibrato) * time))
      as Hw.
    fold vibrato in Hv.
    set (w := sin (2 * / 1 * PI * p * (1 * / 1 + vibrato) * time)) in *.
    assert (-0.01 <= vibrato * w <= 0.01) as Hvw.
    { unfold vibrato in *.
      set (v := sin (2 * / 1 * PI * (6 * / 1) * time)) in *. nra. }
    set (vw := vibrato * w) in *. clearbody vw.
    match goal with
    | |- _ <= ?mix * env * _ <= _ =>
        assert (-1 <= mix <= 1) as Hmix by lra;
        set (m := mix) in *; clearbody m
    end.
    nra. }
  apply Rtrunc_between in Hs.
  exists (Rtrunc sample). split; [|lia].
  replace (- 2 ^ (16 - 1) <=? Rtrunc sample)%Z with true
    by (symmetry; apply Z.leb_le; cbn; lia).
  replace (Rtrunc sample <? 2 ^ (16 - 1))%Z with true
    by (symmetry; apply Z.ltb_lt; cbn; lia).
  done.
Qed.


End ManToneExact.
